(** * JtagKnocker: the TAP state engine and the signal/pin layer

    A shallow embedding of [jtagtap.c] (the TAP state engine) and of the
    signal/pin layer it drives.  The engine is embedded from its source; the
    collaborators it calls ([jtag_Set], [jtag_Clock], [jtag_IsAllocated]) are
    taken as an interface, and observed through a port that records every
    call. *)

From Stdlib Require Import ZArith List Bool Lia.
From Stdlib Require String.
Import ListNotations.
Local Open Scope Z_scope.

(** ** Signals *)

(** Modelled from the spec: the enumeration of logical signals declared in
    [jtag.h] (five wires: TCK, TMS, TDI, TDO, TRST). *)
Inductive jtag_Signal : Type :=
| JTAG_SIGNAL_TCK
| JTAG_SIGNAL_TMS
| JTAG_SIGNAL_TDI
| JTAG_SIGNAL_TDO
| JTAG_SIGNAL_TRST.

Definition jtag_Signal_eqb (a b : jtag_Signal) : bool :=
  match a, b with
  | JTAG_SIGNAL_TCK, JTAG_SIGNAL_TCK
  | JTAG_SIGNAL_TMS, JTAG_SIGNAL_TMS
  | JTAG_SIGNAL_TDI, JTAG_SIGNAL_TDI
  | JTAG_SIGNAL_TDO, JTAG_SIGNAL_TDO
  | JTAG_SIGNAL_TRST, JTAG_SIGNAL_TRST => true
  | _, _ => false
  end.

(** ** The signal/pin layer *)

Module Jtag.

(** Modelled from the spec: the "not allocated" sentinel
    [JTAG_SIGNAL_NOT_ALLOCATED] of [jtag.h]; a signal has an optional pin,
    and [jtag_Cfg] takes a pin or the sentinel. *)
Definition JTAG_SIGNAL_NOT_ALLOCATED : option Z := None.

(** Modelled from the spec: the number of pins of the one available port
    (pins 0..15). *)
Definition JTAG_PIN_MAX : Z := 16.

(** Modelled from the spec: the module state of [jtag.c]
    ([jtag_Signals], [jtag_PinUsage]) with the registers that
    [test/tjtag.c] declares in place of the hardware. *)
Record jtag : Type := mk_jtag {
  jtag_Signals : jtag_Signal -> option Z;
  jtag_PinUsage : Z;
  GPIOD_MODER : Z;
  GPIOD_OTYPER : Z;
  GPIOD_OSPEEDR : Z;
  GPIOD_PUPDR : Z;
  GPIOD_IDR : Z;
  GPIOD_ODR : Z;
  GPIOD_BSRR : Z;
  RCC_AHBENR : Z
}.

(** A 32-bit register keeps the low 32 bits of what is written to it. *)
Definition u32 (x : Z) : Z := Z.land x 0xFFFFFFFF.

(** [reg |= mask] and [reg &= ~mask]; neither leaves the 32 bits when the
    register and the mask are within them. *)
Definition set_bits (reg mask : Z) : Z := Z.lor reg mask.
Definition clear_bits (reg mask : Z) : Z := Z.land reg (Z.lnot mask).

Definition set_Signals (f : jtag_Signal -> option Z) (s : jtag) : jtag :=
  mk_jtag f (jtag_PinUsage s) (GPIOD_MODER s) (GPIOD_OTYPER s)
    (GPIOD_OSPEEDR s) (GPIOD_PUPDR s) (GPIOD_IDR s) (GPIOD_ODR s)
    (GPIOD_BSRR s) (RCC_AHBENR s).
Definition set_PinUsage (u : Z) (s : jtag) : jtag :=
  mk_jtag (jtag_Signals s) u (GPIOD_MODER s) (GPIOD_OTYPER s)
    (GPIOD_OSPEEDR s) (GPIOD_PUPDR s) (GPIOD_IDR s) (GPIOD_ODR s)
    (GPIOD_BSRR s) (RCC_AHBENR s).
Definition set_MODER (r : Z) (s : jtag) : jtag :=
  mk_jtag (jtag_Signals s) (jtag_PinUsage s) r (GPIOD_OTYPER s)
    (GPIOD_OSPEEDR s) (GPIOD_PUPDR s) (GPIOD_IDR s) (GPIOD_ODR s)
    (GPIOD_BSRR s) (RCC_AHBENR s).
Definition set_OTYPER (r : Z) (s : jtag) : jtag :=
  mk_jtag (jtag_Signals s) (jtag_PinUsage s) (GPIOD_MODER s) r
    (GPIOD_OSPEEDR s) (GPIOD_PUPDR s) (GPIOD_IDR s) (GPIOD_ODR s)
    (GPIOD_BSRR s) (RCC_AHBENR s).
Definition set_OSPEEDR (r : Z) (s : jtag) : jtag :=
  mk_jtag (jtag_Signals s) (jtag_PinUsage s) (GPIOD_MODER s) (GPIOD_OTYPER s)
    r (GPIOD_PUPDR s) (GPIOD_IDR s) (GPIOD_ODR s)
    (GPIOD_BSRR s) (RCC_AHBENR s).
Definition set_PUPDR (r : Z) (s : jtag) : jtag :=
  mk_jtag (jtag_Signals s) (jtag_PinUsage s) (GPIOD_MODER s) (GPIOD_OTYPER s)
    (GPIOD_OSPEEDR s) r (GPIOD_IDR s) (GPIOD_ODR s)
    (GPIOD_BSRR s) (RCC_AHBENR s).
Definition set_ODR (r : Z) (s : jtag) : jtag :=
  mk_jtag (jtag_Signals s) (jtag_PinUsage s) (GPIOD_MODER s) (GPIOD_OTYPER s)
    (GPIOD_OSPEEDR s) (GPIOD_PUPDR s) (GPIOD_IDR s) r
    (GPIOD_BSRR s) (RCC_AHBENR s).
Definition set_BSRR (r : Z) (s : jtag) : jtag :=
  mk_jtag (jtag_Signals s) (jtag_PinUsage s) (GPIOD_MODER s) (GPIOD_OTYPER s)
    (GPIOD_OSPEEDR s) (GPIOD_PUPDR s) (GPIOD_IDR s) (GPIOD_ODR s)
    r (RCC_AHBENR s).
Definition set_AHBENR (r : Z) (s : jtag) : jtag :=
  mk_jtag (jtag_Signals s) (jtag_PinUsage s) (GPIOD_MODER s) (GPIOD_OTYPER s)
    (GPIOD_OSPEEDR s) (GPIOD_PUPDR s) (GPIOD_IDR s) (GPIOD_ODR s)
    (GPIOD_BSRR s) r.

(** [jtag_Signals[sig] = pin] *)
Definition assign (sig : jtag_Signal) (pin : option Z)
  (f : jtag_Signal -> option Z) : jtag_Signal -> option Z :=
  fun x => if jtag_Signal_eqb x sig then pin else f x.

(** Modelled from the spec: a pin as a push-pull digital output, low speed,
    no pull resistor, driven low.  MODER, OSPEEDR and PUPDR hold two bits a
    pin, OTYPER and ODR one. *)
Definition pin_output (pin : Z) (s : jtag) : jtag :=
  let two := Z.shiftl 3 (pin * 2) in
  let one := Z.shiftl 1 pin in
  set_MODER (set_bits (clear_bits (GPIOD_MODER s) two) (Z.shiftl 1 (pin * 2)))
    (set_OTYPER (clear_bits (GPIOD_OTYPER s) one)
       (set_OSPEEDR (clear_bits (GPIOD_OSPEEDR s) two)
          (set_PUPDR (clear_bits (GPIOD_PUPDR s) two)
             (set_ODR (clear_bits (GPIOD_ODR s) one) s)))).

(** Modelled from the spec: a pin as a floating digital input. *)
Definition pin_input (pin : Z) (s : jtag) : jtag :=
  let two := Z.shiftl 3 (pin * 2) in
  set_MODER (clear_bits (GPIOD_MODER s) two)
    (set_PUPDR (clear_bits (GPIOD_PUPDR s) two) s).

(** Modelled from the spec: deconfiguring a pin, "drive it low, set it to
    input mode, clear its usage bit"; the assignment is cleared by the
    caller.  The tests see BSRR untouched by it, so the pin is driven low
    in ODR. *)
Definition release_pin (pin : Z) (s : jtag) : jtag :=
  set_PinUsage (clear_bits (jtag_PinUsage s) (Z.shiftl 1 pin))
    (pin_input pin (set_ODR (clear_bits (GPIOD_ODR s) (Z.shiftl 1 pin)) s)).

(** Modelled from the spec: claiming a pin, "mark it used, record the
    assignment, and configure its electrical direction — output for every
    signal except TDO, which remains a floating input". *)
Definition claim_pin (sig : jtag_Signal) (pin : Z) (s : jtag) : jtag :=
  let s := set_PinUsage (set_bits (jtag_PinUsage s) (Z.shiftl 1 pin)) s in
  let s := set_Signals (assign sig (Some pin) (jtag_Signals s)) s in
  if jtag_Signal_eqb sig JTAG_SIGNAL_TDO then pin_input pin s
  else pin_output pin s.

(** Modelled from the spec: Initialize of [jtag.c], which is not under
    [src/].  The peripheral clock is enabled without disturbing the other
    bits of RCC_AHBENR; TCK, TMS, TDI, TDO take pins 0..3 and TRST none; the
    port's registers are rewritten whole (the test expects MODER = 0x15 from
    any prior value). *)
Definition jtag_Init (s : jtag) : jtag :=
  mk_jtag
    (fun sig => match sig with
                | JTAG_SIGNAL_TCK => Some 0
                | JTAG_SIGNAL_TMS => Some 1
                | JTAG_SIGNAL_TDI => Some 2
                | JTAG_SIGNAL_TDO => Some 3
                | JTAG_SIGNAL_TRST => JTAG_SIGNAL_NOT_ALLOCATED
                end)
    0x0F
    0x15 0 0 0 (GPIOD_IDR s) 0 0
    (set_bits (RCC_AHBENR s) (Z.shiftl 1 20)).

(** Modelled from the spec: "the requested pin is already claimed by a
    different signal".  The usage bitset answers whether the pin is free,
    and the signal's own assignment whether the claim is its own. *)
Definition claimed_by_other (sig : jtag_Signal) (pin : Z) (s : jtag) : bool :=
  Z.testbit (jtag_PinUsage s) pin
  && negb match jtag_Signals s sig with
          | Some old => old =? pin
          | None => false
          end.

(** Modelled from the spec: Configure of [jtag.c], which is not under
    [src/].  The result is the success flag and the state after the call. *)
Definition jtag_Cfg (sig : jtag_Signal) (pin : option Z) (s : jtag)
  : bool * jtag :=
  match pin with
  | None =>
      match jtag_Signals s sig with
      | Some old =>
          (true, set_Signals (assign sig None (jtag_Signals s))
                   (release_pin old s))
      | None => (true, s)
      end
  | Some p =>
      if negb ((0 <=? p) && (p <? JTAG_PIN_MAX)) then (false, s)
      else if claimed_by_other sig p s then (false, s)
      else
        let s1 :=
          match jtag_Signals s sig with
          | Some old => if old =? p then s else release_pin old s
          | None => s
          end in
        (true, claim_pin sig p s1)
  end.

(** Modelled from the spec: IsAllocated of [jtag.c]. *)
Definition jtag_IsAllocated (sig : jtag_Signal) (s : jtag) : bool :=
  match jtag_Signals s sig with
  | Some _ => true
  | None => false
  end.

(** Modelled from the spec: Drive of [jtag.c]; nothing happens for an
    unassigned signal or a pin configured as input, otherwise one write to
    the set/reset register. *)
Definition jtag_Set (sig : jtag_Signal) (level : bool) (s : jtag) : jtag :=
  match jtag_Signals s sig with
  | None => s
  | Some pin =>
      if Z.land (Z.shiftr (GPIOD_MODER s) (pin * 2)) 3 =? 0 then s
      else set_BSRR (u32 (Z.shiftl 1 (if level then pin else pin + 16))) s
  end.

(** Modelled from the spec: Read of [jtag.c]. *)
Definition jtag_Get (sig : jtag_Signal) (s : jtag) : bool :=
  match jtag_Signals s sig with
  | None => false
  | Some pin => Z.testbit (GPIOD_IDR s) pin
  end.

(** *** The invariant of the signal/pin state *)

(** The usage bitset has exactly the bits of the assigned pins. *)
Definition usage_matches (signals : jtag_Signal -> option Z) (usage : Z)
  : Prop :=
  forall pin : Z,
    Z.testbit usage pin = true <-> exists sig, signals sig = Some pin.

(** At most one signal on a pin. *)
Definition no_aliasing (signals : jtag_Signal -> option Z) : Prop :=
  forall a b pin,
    signals a = Some pin -> signals b = Some pin -> a = b.

Definition signal_pin_inv (s : jtag) : Prop :=
  usage_matches (jtag_Signals s) (jtag_PinUsage s)
  /\ no_aliasing (jtag_Signals s).

(** All registers at zero, nothing allocated. *)
Definition zeroed : jtag :=
  mk_jtag (fun _ => JTAG_SIGNAL_NOT_ALLOCATED) 0 0 0 0 0 0 0 0 0.

(** A call that fails and leaves everything as it was: the flag is false
    and the state after the call is the state before it. *)
Definition fails_unchanged (sig : jtag_Signal) (pin : option Z) (s : jtag)
  : Prop :=
  jtag_Cfg sig pin s = (false, s).

End Jtag.

(** ** The TAP state engine *)

Module JtagTAP.

(** Modelled from the spec: the enumeration [jtagTAP_TAPState] declared in
    [jtagtap.h]; the seventeen names are those indexing
    [jtagTAP_StateNames]. *)
Inductive jtagTAP_TAPState : Type :=
| JTAGTAP_STATE_UNKNOWN
| JTAGTAP_STATE_RESET
| JTAGTAP_STATE_IDLE
| JTAGTAP_STATE_DR_SCAN
| JTAGTAP_STATE_DR_CAPTURE
| JTAGTAP_STATE_DR_SHIFT
| JTAGTAP_STATE_DR_EXIT1
| JTAGTAP_STATE_DR_PAUSE
| JTAGTAP_STATE_DR_EXIT2
| JTAGTAP_STATE_DR_UPDATE
| JTAGTAP_STATE_IR_SCAN
| JTAGTAP_STATE_IR_CAPTURE
| JTAGTAP_STATE_IR_SHIFT
| JTAGTAP_STATE_IR_EXIT1
| JTAGTAP_STATE_IR_PAUSE
| JTAGTAP_STATE_IR_EXIT2
| JTAGTAP_STATE_IR_UPDATE.

(** Modelled from the spec: the integer value of each enumerator, in the
    order in which the spec lists the states (Unknown first).  The engine
    compares targets with [>=] and [<=] on these values. *)
Definition state_code (s : jtagTAP_TAPState) : Z :=
  match s with
  | JTAGTAP_STATE_UNKNOWN => 0
  | JTAGTAP_STATE_RESET => 1
  | JTAGTAP_STATE_IDLE => 2
  | JTAGTAP_STATE_DR_SCAN => 3
  | JTAGTAP_STATE_DR_CAPTURE => 4
  | JTAGTAP_STATE_DR_SHIFT => 5
  | JTAGTAP_STATE_DR_EXIT1 => 6
  | JTAGTAP_STATE_DR_PAUSE => 7
  | JTAGTAP_STATE_DR_EXIT2 => 8
  | JTAGTAP_STATE_DR_UPDATE => 9
  | JTAGTAP_STATE_IR_SCAN => 10
  | JTAGTAP_STATE_IR_CAPTURE => 11
  | JTAGTAP_STATE_IR_SHIFT => 12
  | JTAGTAP_STATE_IR_EXIT1 => 13
  | JTAGTAP_STATE_IR_PAUSE => 14
  | JTAGTAP_STATE_IR_EXIT2 => 15
  | JTAGTAP_STATE_IR_UPDATE => 16
  end.

(** The C comparisons on enumerators. *)
Definition state_eqb (a b : jtagTAP_TAPState) : bool :=
  state_code a =? state_code b.
Definition state_geb (a b : jtagTAP_TAPState) : bool :=
  state_code b <=? state_code a.
Definition state_leb (a b : jtagTAP_TAPState) : bool :=
  state_code a <=? state_code b.

Declare Scope tap_scope.
Delimit Scope tap_scope with tap.
Infix "==" := state_eqb (at level 70, no associativity) : tap_scope.
Notation "a != b" := (negb (state_eqb a b))
  (at level 70, no associativity) : tap_scope.
Infix ">==" := state_geb (at level 70, no associativity) : tap_scope.
Infix "<==" := state_leb (at level 70, no associativity) : tap_scope.

(** ** The collaborators of the engine

    The engine reaches the hardware through three functions of [jtag.h] and
    one machine instruction.  Their code is not part of the engine, so it is
    an interface here; [H] is whatever state the signal layer keeps. *)
Class JtagPort (H : Type) : Type := {
  port_Set : jtag_Signal -> bool -> H -> H;       (* jtag_Set(signal, level) *)
  port_Clock : H -> H;                            (* jtag_Clock() *)
  port_IsAllocated : jtag_Signal -> H -> bool;    (* jtag_IsAllocated(signal) *)
  port_nop : H -> H                               (* __asm("nop") *)
}.

(** The file-level state of [jtagtap.c] together with the state behind the
    port. *)
Record tap (H : Type) : Type := mk_tap {
  TAPState : jtagTAP_TAPState;   (* static jtagTAP_TAPState TAPState *)
  port : H
}.
Arguments mk_tap {H} _ _.
Arguments TAPState {H} _.
Arguments port {H} _.

(** Statements run in a state monad; [None] is a loop that used up its
    iteration budget. *)
Definition M (H A : Type) : Type := tap H -> option (A * tap H).

Definition ret {H A} (a : A) : M H A := fun w => Some (a, w).
Definition bind {H A B} (m : M H A) (k : A -> M H B) : M H B :=
  fun w => match m w with
           | Some (a, w') => k a w'
           | None => None
           end.
Definition out_of_fuel {H A} : M H A := fun _ => None.

Notation "x <- m ;; k" := (bind m (fun x => k))
  (at level 100, m at next level, right associativity) : tap_scope.
Notation "m ;; k" := (bind m (fun _ => k))
  (at level 100, right associativity) : tap_scope.

Section Engine.
Context {H : Type} {P : JtagPort H}.
Local Open Scope tap_scope.

Definition get_TAPState : M H jtagTAP_TAPState :=
  fun w => Some (TAPState w, w).
Definition set_TAPState (s : jtagTAP_TAPState) : M H unit :=
  fun w => Some (tt, mk_tap s (port w)).

Definition jtag_Set (sig : jtag_Signal) (level : bool) : M H unit :=
  fun w => Some (tt, mk_tap (TAPState w) (port_Set sig level (port w))).
Definition jtag_Clock : M H unit :=
  fun w => Some (tt, mk_tap (TAPState w) (port_Clock (port w))).
Definition jtag_IsAllocated (sig : jtag_Signal) : M H bool :=
  fun w => Some (port_IsAllocated sig (port w), w).
Definition asm_nop : M H unit :=
  fun w => Some (tt, mk_tap (TAPState w) (port_nop (port w))).

(** [while (cond) body] with an iteration budget. *)
Fixpoint while_ (fuel : nat) (cond : M H bool) (body : M H unit)
  {struct fuel} : M H unit :=
  c <- cond ;;
  if c then
    match fuel with
    | O => out_of_fuel
    | S fuel' => body ;; while_ fuel' cond body
    end
  else ret tt.

(** [const unsigned int delay_count = 20000] *)
Definition delay_count : Z := 20000.

(** [while(++count < delay_count) { __asm("nop"); }] for an
    [unsigned int count] (32 bits on the target). *)
Fixpoint delay_loop (fuel : nat) (count : Z) {struct fuel} : M H unit :=
  let count := (count + 1) mod 2 ^ 32 in
  if count <? delay_count then
    match fuel with
    | O => out_of_fuel
    | S fuel' => asm_nop ;; delay_loop fuel' count
    end
  else ret tt.

(** [unsigned int count = 0; while(++count < delay_count) ...]: the loop
    is given [delay_count] iterations, which [spin_delay_runs] shows is
    never used up. *)
Definition spin_delay : M H unit :=
  delay_loop (Z.to_nat delay_count) 0.

(** [jtagTAP_Init] *)
Definition jtagTAP_Init : M H unit :=
  set_TAPState JTAGTAP_STATE_UNKNOWN.

(** The [switch(TAPState)] that is the body of the transition loop of
    [jtagTAP_SetState]. *)
Definition transition (target : jtagTAP_TAPState) : M H unit :=
  s <- get_TAPState ;;
  match s with
  | JTAGTAP_STATE_UNKNOWN =>
      allocated <- jtag_IsAllocated JTAG_SIGNAL_TRST ;;
      (if allocated then
         jtag_Set JTAG_SIGNAL_TMS true ;;
         jtag_Set JTAG_SIGNAL_TRST false ;;
         spin_delay ;;
         jtag_Set JTAG_SIGNAL_TRST true
       else
         jtag_Set JTAG_SIGNAL_TMS true ;;
         jtag_Clock ;;
         jtag_Clock ;;
         jtag_Clock ;;
         jtag_Clock ;;
         jtag_Clock) ;;
      set_TAPState JTAGTAP_STATE_RESET
  | JTAGTAP_STATE_RESET =>
      jtag_Set JTAG_SIGNAL_TMS false ;;
      jtag_Clock ;;
      set_TAPState JTAGTAP_STATE_IDLE
  | JTAGTAP_STATE_IDLE =>
      jtag_Set JTAG_SIGNAL_TMS true ;;
      jtag_Clock ;;
      set_TAPState JTAGTAP_STATE_DR_SCAN
  | JTAGTAP_STATE_DR_SCAN =>
      (if (target >== JTAGTAP_STATE_DR_CAPTURE)
          && (target <== JTAGTAP_STATE_DR_UPDATE) then
         jtag_Set JTAG_SIGNAL_TMS false ;;
         set_TAPState JTAGTAP_STATE_DR_CAPTURE
       else
         jtag_Set JTAG_SIGNAL_TMS true ;;
         set_TAPState JTAGTAP_STATE_IR_SCAN) ;;
      jtag_Clock
  | JTAGTAP_STATE_DR_CAPTURE =>
      (if target == JTAGTAP_STATE_DR_SHIFT then
         jtag_Set JTAG_SIGNAL_TMS false ;;
         set_TAPState JTAGTAP_STATE_DR_SHIFT
       else
         jtag_Set JTAG_SIGNAL_TMS true ;;
         set_TAPState JTAGTAP_STATE_DR_EXIT1) ;;
      jtag_Clock
  | JTAGTAP_STATE_DR_SHIFT =>
      jtag_Set JTAG_SIGNAL_TMS true ;;
      jtag_Clock ;;
      set_TAPState JTAGTAP_STATE_DR_EXIT1
  | JTAGTAP_STATE_DR_EXIT1 =>
      (if (target == JTAGTAP_STATE_DR_PAUSE)
          || (target == JTAGTAP_STATE_DR_EXIT2)
          || (target == JTAGTAP_STATE_DR_SHIFT) then
         jtag_Set JTAG_SIGNAL_TMS false ;;
         set_TAPState JTAGTAP_STATE_DR_PAUSE
       else
         jtag_Set JTAG_SIGNAL_TMS true ;;
         set_TAPState JTAGTAP_STATE_DR_UPDATE) ;;
      jtag_Clock
  | JTAGTAP_STATE_DR_PAUSE =>
      jtag_Set JTAG_SIGNAL_TMS true ;;
      jtag_Clock ;;
      set_TAPState JTAGTAP_STATE_DR_EXIT2
  | JTAGTAP_STATE_DR_EXIT2 =>
      (if (target == JTAGTAP_STATE_DR_PAUSE)
          || (target == JTAGTAP_STATE_DR_EXIT1)
          || (target == JTAGTAP_STATE_DR_SHIFT) then
         jtag_Set JTAG_SIGNAL_TMS false ;;
         set_TAPState JTAGTAP_STATE_DR_SHIFT
       else
         jtag_Set JTAG_SIGNAL_TMS true ;;
         set_TAPState JTAGTAP_STATE_DR_UPDATE) ;;
      jtag_Clock
  | JTAGTAP_STATE_DR_UPDATE =>
      (if target == JTAGTAP_STATE_IDLE then
         jtag_Set JTAG_SIGNAL_TMS false ;;
         set_TAPState JTAGTAP_STATE_IDLE
       else
         jtag_Set JTAG_SIGNAL_TMS true ;;
         set_TAPState JTAGTAP_STATE_DR_SCAN) ;;
      jtag_Clock
  | JTAGTAP_STATE_IR_SCAN =>
      (if (target >== JTAGTAP_STATE_IR_CAPTURE)
          && (target <== JTAGTAP_STATE_IR_UPDATE) then
         jtag_Set JTAG_SIGNAL_TMS false ;;
         set_TAPState JTAGTAP_STATE_IR_CAPTURE
       else
         jtag_Set JTAG_SIGNAL_TMS true ;;
         set_TAPState JTAGTAP_STATE_RESET) ;;
      jtag_Clock
  | JTAGTAP_STATE_IR_CAPTURE =>
      (if target == JTAGTAP_STATE_IR_SHIFT then
         jtag_Set JTAG_SIGNAL_TMS false ;;
         set_TAPState JTAGTAP_STATE_IR_SHIFT
       else
         jtag_Set JTAG_SIGNAL_TMS true ;;
         set_TAPState JTAGTAP_STATE_IR_EXIT1) ;;
      jtag_Clock
  | JTAGTAP_STATE_IR_SHIFT =>
      jtag_Set JTAG_SIGNAL_TMS true ;;
      jtag_Clock ;;
      set_TAPState JTAGTAP_STATE_IR_EXIT1
  | JTAGTAP_STATE_IR_EXIT1 =>
      (if (target == JTAGTAP_STATE_IR_PAUSE)
          || (target == JTAGTAP_STATE_IR_EXIT2)
          || (target == JTAGTAP_STATE_IR_SHIFT) then
         jtag_Set JTAG_SIGNAL_TMS false ;;
         set_TAPState JTAGTAP_STATE_IR_PAUSE
       else
         jtag_Set JTAG_SIGNAL_TMS true ;;
         set_TAPState JTAGTAP_STATE_IR_UPDATE) ;;
      jtag_Clock
  | JTAGTAP_STATE_IR_PAUSE =>
      jtag_Set JTAG_SIGNAL_TMS true ;;
      jtag_Clock ;;
      set_TAPState JTAGTAP_STATE_IR_EXIT2
  | JTAGTAP_STATE_IR_EXIT2 =>
      (if (target == JTAGTAP_STATE_IR_PAUSE)
          || (target == JTAGTAP_STATE_IR_EXIT1)
          || (target == JTAGTAP_STATE_IR_SHIFT) then
         jtag_Set JTAG_SIGNAL_TMS false ;;
         set_TAPState JTAGTAP_STATE_IR_SHIFT
       else
         jtag_Set JTAG_SIGNAL_TMS true ;;
         set_TAPState JTAGTAP_STATE_IR_UPDATE) ;;
      jtag_Clock
  | JTAGTAP_STATE_IR_UPDATE =>
      (if target == JTAGTAP_STATE_IDLE then
         jtag_Set JTAG_SIGNAL_TMS false ;;
         set_TAPState JTAGTAP_STATE_IDLE
       else
         jtag_Set JTAG_SIGNAL_TMS true ;;
         set_TAPState JTAGTAP_STATE_DR_SCAN) ;;
      jtag_Clock
  end.

(** The loop condition [TAPState != target]. *)
Definition not_at (target : jtagTAP_TAPState) : M H bool :=
  s <- get_TAPState ;; ret (s != target).

(** [jtagTAP_SetState]; [fuel] bounds the iterations of the transition
    loop. *)
Definition jtagTAP_SetState (fuel : nat) (target : jtagTAP_TAPState)
  : M H unit :=
  if target != JTAGTAP_STATE_UNKNOWN then
    easy <- (if target == JTAGTAP_STATE_RESET
             then jtag_IsAllocated JTAG_SIGNAL_TRST
             else ret false) ;;
    (if easy then
       jtag_Set JTAG_SIGNAL_TMS true ;;
       jtag_Set JTAG_SIGNAL_TRST false ;;
       spin_delay ;;
       jtag_Set JTAG_SIGNAL_TRST true ;;
       set_TAPState JTAGTAP_STATE_RESET
     else ret tt) ;;
    while_ fuel (not_at target) (transition target)
  else
    set_TAPState JTAGTAP_STATE_UNKNOWN.

(** [jtagTAP_GetState] *)
Definition jtagTAP_GetState : M H jtagTAP_TAPState := get_TAPState.

End Engine.

Arguments spin_delay : simpl never.
Arguments delay_count : simpl never.

(** ** A port that records the calls made through it *)

Inductive event : Type :=
| EvSet (sig : jtag_Signal) (level : bool)   (* jtag_Set(sig, level) *)
| EvClock                                    (* jtag_Clock() *)
| EvNop.                                     (* one pass of the busy wait *)

(** [allocated] answers [jtag_IsAllocated]; [calls] holds the calls made so
    far, the most recent first. *)
Record recorder : Type := mk_recorder {
  allocated : jtag_Signal -> bool;
  calls : list event
}.

Definition record_call (e : event) (r : recorder) : recorder :=
  mk_recorder (allocated r) (e :: calls r).

#[global] Instance recorder_port : JtagPort recorder := {|
  port_Set := fun sig level => record_call (EvSet sig level);
  port_Clock := record_call EvClock;
  port_IsAllocated := fun sig r => allocated r sig;
  port_nop := record_call EvNop
|}.

(** The calls in the order they were made. *)
Definition trace (r : recorder) : list event := rev_append (calls r) [].

Definition is_clock (e : event) : bool :=
  match e with EvClock => true | _ => false end.

(** Number of clock pulses in a run of calls. *)
Definition clock_pulses (l : list event) : nat :=
  length (filter is_clock l).

(** The busy wait as it shows in a trace. *)
Definition nops : list event :=
  repeat EvNop (Z.to_nat (delay_count - 1)).

(** ** The state component of a transition

    The engine run on a port that keeps no state: what is left is the
    effect of [transition] on [TAPState]. *)
#[global] Instance null_port : JtagPort unit := {|
  port_Set := fun _ _ _ => tt;
  port_Clock := fun _ => tt;
  port_IsAllocated := fun _ _ => false;
  port_nop := fun _ => tt
|}.

Definition next_state (target s : jtagTAP_TAPState) : jtagTAP_TAPState :=
  match transition target (mk_tap s tt) with
  | Some (_, w) => TAPState w
  | None => s
  end.

(** Number of transitions from [s] until [TAPState] is [target], if at most
    [fuel]. *)
Fixpoint hops (fuel : nat) (target s : jtagTAP_TAPState) : option nat :=
  if (s == target)%tap then Some O
  else match fuel with
       | O => None
       | S fuel' => option_map S (hops fuel' target (next_state target s))
       end.

Arguments nops : simpl never.

(** The calls of the hardware reset: TMS high, TRST low (asserted), the
    busy wait, TRST high (released). *)
Definition reset_calls : list event :=
  [EvSet JTAG_SIGNAL_TMS true; EvSet JTAG_SIGNAL_TRST false]
    ++ nops ++ [EvSet JTAG_SIGNAL_TRST true].

(** Running [m] from [w] completes with [TAPState] at [s'], having made
    exactly the calls [evs], in that order, and no change of allocation. *)
Definition performs (m : M recorder unit) (w : tap recorder)
  (s' : jtagTAP_TAPState) (evs : list event) : Prop :=
  exists w',
    m w = Some (tt, w')
    /\ jtagTAP_GetState w' = Some (s', w')
    /\ allocated (port w') = allocated (port w)
    /\ trace (port w') = trace (port w) ++ evs.

(** The transitions toward [target], started in [w], pass through the
    states of [path] one after the other and end in [w']. *)
Fixpoint walks {H : Type} {P : JtagPort H} (target : jtagTAP_TAPState)
  (w : tap H) (path : list jtagTAP_TAPState) (w' : tap H) : Prop :=
  match path with
  | [] => w' = w
  | s :: path' =>
      exists w1,
        transition target w = Some (tt, w1)
        /\ TAPState w1 = s
        /\ walks target w1 path' w'
  end.

(** One iteration of the transition loop as a single TMS level and a
    single clock pulse, ending in the next state. *)
Definition one_pulse_step (target : jtagTAP_TAPState) (w : tap recorder)
  : Prop :=
  exists level : bool,
    performs (transition target) w (next_state target (TAPState w))
      [EvSet JTAG_SIGNAL_TMS level; EvClock].

(** The states of the IR path, IR-Capture through IR-Update. *)
Definition ir_path : list jtagTAP_TAPState :=
  [JTAGTAP_STATE_IR_CAPTURE; JTAGTAP_STATE_IR_SHIFT; JTAGTAP_STATE_IR_EXIT1;
   JTAGTAP_STATE_IR_PAUSE; JTAGTAP_STATE_IR_EXIT2; JTAGTAP_STATE_IR_UPDATE].

(** Only TRST allocated or not matters to the engine. *)
Definition with_trst (b : bool) (sig : jtag_Signal) : bool :=
  match sig with
  | JTAG_SIGNAL_TRST => b
  | _ => true
  end.

(** ** Observing whole calls *)

(** The seventeen states, in the order of the enumeration. *)
Definition all_states : list jtagTAP_TAPState :=
  [JTAGTAP_STATE_UNKNOWN; JTAGTAP_STATE_RESET; JTAGTAP_STATE_IDLE;
   JTAGTAP_STATE_DR_SCAN; JTAGTAP_STATE_DR_CAPTURE; JTAGTAP_STATE_DR_SHIFT;
   JTAGTAP_STATE_DR_EXIT1; JTAGTAP_STATE_DR_PAUSE; JTAGTAP_STATE_DR_EXIT2;
   JTAGTAP_STATE_DR_UPDATE; JTAGTAP_STATE_IR_SCAN; JTAGTAP_STATE_IR_CAPTURE;
   JTAGTAP_STATE_IR_SHIFT; JTAGTAP_STATE_IR_EXIT1; JTAGTAP_STATE_IR_PAUSE;
   JTAGTAP_STATE_IR_EXIT2; JTAGTAP_STATE_IR_UPDATE].

(** The engine in state [s] on a recorder that has seen no call yet. *)
Definition start_in (s : jtagTAP_TAPState) (trst : bool) : tap recorder :=
  mk_tap s (mk_recorder (with_trst trst) []).

(** The calls one [transition] makes from [s], read off a run on a fresh
    recorder. *)
Definition step_calls (target s : jtagTAP_TAPState) (trst : bool)
  : list event :=
  match transition target (start_in s trst) with
  | Some (_, w) => trace (port w)
  | None => []
  end.

(** The calls [jtagTAP_SetState(target)] makes from [s], read off a run on
    a fresh recorder with eight iterations allowed. *)
Definition calls_of (target s : jtagTAP_TAPState) (trst : bool)
  : option (list event) :=
  match jtagTAP_SetState 8 target (start_in s trst) with
  | Some (_, w) => Some (trace (port w))
  | None => None
  end.

(** The states the transition loop goes through from [s] to [target], the
    start excluded and the target included, if at most [fuel]. *)
Fixpoint route (fuel : nat) (target s : jtagTAP_TAPState)
  : option (list jtagTAP_TAPState) :=
  if (s == target)%tap then Some []
  else match fuel with
       | O => None
       | S fuel' =>
           option_map (cons (next_state target s))
             (route fuel' target (next_state target s))
       end.

(** The states a sequence of transitions goes through when each transition
    is made toward its own target. *)
Fixpoint steer (targets : list jtagTAP_TAPState) (s : jtagTAP_TAPState)
  : jtagTAP_TAPState :=
  match targets with
  | [] => s
  | t :: targets' => steer targets' (next_state t s)
  end.

(** The states one transition can lead to from [s], over all targets. *)
Definition same_state (a b : jtagTAP_TAPState) : {a = b} + {a <> b}.
Proof. decide equality. Defined.

Definition successors (s : jtagTAP_TAPState) : list jtagTAP_TAPState :=
  nodup same_state (map (fun t => next_state t s) all_states).

(** [t] can be reached from [s] by at most [k] transitions. *)
Fixpoint within (k : nat) (s t : jtagTAP_TAPState) : bool :=
  (s == t)%tap
  || match k with
     | O => false
     | S k' => existsb (fun s' => within k' s' t) (successors s)
     end.

(** No state twice in a list. *)
Fixpoint distinct (l : list jtagTAP_TAPState) : bool :=
  match l with
  | [] => true
  | s :: l' => negb (existsb (state_eqb s) l') && distinct l'
  end.

(** The states in which a data (or instruction) register scan is under
    way: Shift, Exit1, Pause, Exit2. *)
Definition dr_shift_group : list jtagTAP_TAPState :=
  [JTAGTAP_STATE_DR_SHIFT; JTAGTAP_STATE_DR_EXIT1;
   JTAGTAP_STATE_DR_PAUSE; JTAGTAP_STATE_DR_EXIT2].
Definition ir_shift_group : list jtagTAP_TAPState :=
  [JTAGTAP_STATE_IR_SHIFT; JTAGTAP_STATE_IR_EXIT1;
   JTAGTAP_STATE_IR_PAUSE; JTAGTAP_STATE_IR_EXIT2].

(** The states of the DR path, DR-Capture through DR-Update. *)
Definition dr_path : list jtagTAP_TAPState :=
  [JTAGTAP_STATE_DR_CAPTURE; JTAGTAP_STATE_DR_SHIFT; JTAGTAP_STATE_DR_EXIT1;
   JTAGTAP_STATE_DR_PAUSE; JTAGTAP_STATE_DR_EXIT2; JTAGTAP_STATE_DR_UPDATE].

(** The level on TRST after a run of calls, when it was [level] before:
    the last level the run drives, or [level] if it drives none. *)
Fixpoint last_trst (evs : list event) (level : option bool) : option bool :=
  match evs with
  | [] => level
  | EvSet JTAG_SIGNAL_TRST l :: evs' => last_trst evs' (Some l)
  | _ :: evs' => last_trst evs' level
  end.

(** The calls of the reset the engine makes from Unknown. *)
Definition unknown_reset_calls (trst : bool) : list event :=
  if trst then reset_calls
  else [EvSet JTAG_SIGNAL_TMS true;
        EvClock; EvClock; EvClock; EvClock; EvClock].

(** A call the engine may make: a clock pulse, a pass of the busy wait, a
    level on TMS, or a level on TRST when TRST is allocated. *)
Definition engine_call (trst : bool) (e : event) : bool :=
  match e with
  | EvSet JTAG_SIGNAL_TMS _ => true
  | EvSet JTAG_SIGNAL_TRST _ => trst
  | EvSet _ _ => false
  | EvClock => true
  | EvNop => true
  end.

(** A run of calls that is empty or starts by driving TMS. *)
Definition tms_first (evs : list event) : bool :=
  match evs with
  | [] => true
  | EvSet JTAG_SIGNAL_TMS _ :: _ => true
  | _ => false
  end.

(** Every level driven is a high level on TMS. *)
Definition tms_high_only (e : event) : bool :=
  match e with
  | EvSet JTAG_SIGNAL_TMS true => true
  | EvSet _ _ => false
  | _ => true
  end.

End JtagTAP.

(** ** The names of the states *)

Module JtagTAPNames.
Import JtagTAP.
Import Stdlib.Strings.String.
Local Open Scope string_scope.

(** [jtagTAP_StateNames], indexed by the enumerators. *)
Definition jtagTAP_StateNames (s : jtagTAP_TAPState) : string :=
  match s with
  | JTAGTAP_STATE_UNKNOWN => "Unknown"
  | JTAGTAP_STATE_RESET => "Reset"
  | JTAGTAP_STATE_IDLE => "Run/Idle"
  | JTAGTAP_STATE_DR_SCAN => "Scan DR"
  | JTAGTAP_STATE_DR_CAPTURE => "Capture DR"
  | JTAGTAP_STATE_DR_SHIFT => "Shift DR"
  | JTAGTAP_STATE_DR_EXIT1 => "Exit 1 DR"
  | JTAGTAP_STATE_DR_PAUSE => "Pause DR"
  | JTAGTAP_STATE_DR_EXIT2 => "Exit 2 DR"
  | JTAGTAP_STATE_DR_UPDATE => "Update DR"
  | JTAGTAP_STATE_IR_SCAN => "Scan IR"
  | JTAGTAP_STATE_IR_CAPTURE => "Capture IR"
  | JTAGTAP_STATE_IR_SHIFT => "Shift IR"
  | JTAGTAP_STATE_IR_EXIT1 => "Exit 1 IR"
  | JTAGTAP_STATE_IR_PAUSE => "Pause IR"
  | JTAGTAP_STATE_IR_EXIT2 => "Exit 2 IR"
  | JTAGTAP_STATE_IR_UPDATE => "Update IR"
  end.

End JtagTAPNames.

(** * Facts about the signal/pin layer *)

Lemma jtag_Signal_eqb_spec (a b : jtag_Signal) :
  reflect (a = b) (jtag_Signal_eqb a b).
Proof. destruct a, b; constructor; congruence. Qed.

Module JtagFacts.
Import Jtag.

(** ** Bits of the usage set *)

Lemma testbit_set_bits (usage pin q : Z) :
  0 <= pin ->
  Z.testbit (set_bits usage (Z.shiftl 1 pin)) q
  = (pin =? q) || Z.testbit usage q.
Proof.
  intros Hpin. change (set_bits usage (Z.shiftl 1 pin)) with (Z.setbit usage pin).
  apply Z.setbit_eqb; exact Hpin.
Qed.

Lemma testbit_clear_bits (usage pin q : Z) :
  Z.testbit (clear_bits usage (Z.shiftl 1 pin)) q
  = Z.testbit usage q && negb (pin =? q).
Proof.
  unfold clear_bits. rewrite <- Z.ldiff_land.
  change (Z.ldiff usage (Z.shiftl 1 pin)) with (Z.clearbit usage pin).
  apply Z.clearbit_eqb.
Qed.

(** ** What a configuration does to the table and the usage set *)

Lemma Signals_claim_pin (sig : jtag_Signal) (pin : Z) (s : jtag) :
  jtag_Signals (claim_pin sig pin s) = assign sig (Some pin) (jtag_Signals s).
Proof. unfold claim_pin. destruct (jtag_Signal_eqb sig _); reflexivity. Qed.

Lemma PinUsage_claim_pin (sig : jtag_Signal) (pin : Z) (s : jtag) :
  jtag_PinUsage (claim_pin sig pin s)
  = set_bits (jtag_PinUsage s) (Z.shiftl 1 pin).
Proof. unfold claim_pin. destruct (jtag_Signal_eqb sig _); reflexivity. Qed.

Lemma assign_same (sig : jtag_Signal) (pin : option Z)
  (f : jtag_Signal -> option Z) :
  assign sig pin f sig = pin.
Proof.
  unfold assign. destruct (jtag_Signal_eqb_spec sig sig); congruence.
Qed.

Lemma assign_other (sig x : jtag_Signal) (pin : option Z)
  (f : jtag_Signal -> option Z) :
  x <> sig -> assign sig pin f x = f x.
Proof.
  intros Hne. unfold assign.
  destruct (jtag_Signal_eqb_spec x sig); congruence.
Qed.

Section Tables.
Variables (f : jtag_Signal -> option Z) (u : Z).
Hypothesis Hmatch : usage_matches f u.
Hypothesis Halias : no_aliasing f.

Lemma assigned_pin_nonneg (sig : jtag_Signal) (pin : Z) :
  f sig = Some pin -> 0 <= pin.
Proof.
  intros Hsig.
  assert (Hbit : Z.testbit u pin = true) by (apply Hmatch; eauto).
  destruct (Z.lt_ge_cases pin 0) as [Hneg|]; [|assumption].
  rewrite Z.testbit_neg_r in Hbit by assumption. discriminate Hbit.
Qed.

(** Releasing the pin of [sig] and clearing its assignment. *)
Lemma release_keeps_inv (sig : jtag_Signal) (old : Z) :
  f sig = Some old ->
  usage_matches (assign sig None f) (clear_bits u (Z.shiftl 1 old))
  /\ no_aliasing (assign sig None f).
Proof.
  intros Hsig. split.
  - intros q. rewrite testbit_clear_bits, andb_true_iff, negb_true_iff.
    split.
    + intros [Hbit Hq]. apply Hmatch in Hbit as [x Hx].
      exists x. rewrite assign_other; [exact Hx|].
      intros ->. rewrite Hsig in Hx. injection Hx as ->.
      rewrite Z.eqb_refl in Hq. discriminate Hq.
    + intros [x Hx].
      destruct (jtag_Signal_eqb_spec x sig) as [->|Hne].
      * rewrite assign_same in Hx. discriminate Hx.
      * rewrite assign_other in Hx by assumption. split.
        -- apply Hmatch; eauto.
        -- apply Z.eqb_neq. intros ->. apply Hne.
           apply (Halias _ _ _ Hx Hsig).
  - intros a b q Ha Hb.
    destruct (jtag_Signal_eqb_spec a sig) as [->|Ha'];
      [rewrite assign_same in Ha; discriminate Ha|].
    destruct (jtag_Signal_eqb_spec b sig) as [->|Hb'];
      [rewrite assign_same in Hb; discriminate Hb|].
    rewrite assign_other in Ha, Hb by assumption.
    apply (Halias _ _ _ Ha Hb).
Qed.

End Tables.

(** Claiming a free pin for a signal that holds none. *)
Lemma claim_keeps_inv (f : jtag_Signal -> option Z) (u : Z)
  (sig : jtag_Signal) (pin : Z) :
  usage_matches f u -> no_aliasing f ->
  f sig = None -> Z.testbit u pin = false -> 0 <= pin ->
  usage_matches (assign sig (Some pin) f) (set_bits u (Z.shiftl 1 pin))
  /\ no_aliasing (assign sig (Some pin) f).
Proof.
  intros Hmatch Halias Hsig Hfree Hpin. split.
  - intros q. rewrite testbit_set_bits, orb_true_iff by assumption. split.
    + intros [Hq|Hbit].
      * apply Z.eqb_eq in Hq as <-. exists sig. apply assign_same.
      * apply Hmatch in Hbit as [x Hx]. exists x.
        rewrite assign_other; [exact Hx|]. intros ->. congruence.
    + intros [x Hx].
      destruct (jtag_Signal_eqb_spec x sig) as [->|Hne].
      * rewrite assign_same in Hx. injection Hx as ->.
        left. apply Z.eqb_refl.
      * rewrite assign_other in Hx by assumption.
        right. apply Hmatch. eauto.
  - intros a b q Ha Hb.
    assert (Hother : forall x, x <> sig -> f x = Some q -> q <> pin).
    { intros x _ Hx ->.
      assert (Hbit : Z.testbit u pin = true) by (apply Hmatch; eauto).
      congruence. }
    destruct (jtag_Signal_eqb_spec a sig) as [->|Ha'];
      destruct (jtag_Signal_eqb_spec b sig) as [->|Hb']; try reflexivity.
    + rewrite assign_same in Ha. injection Ha as <-.
      rewrite assign_other in Hb by assumption.
      exfalso. apply (Hother b Hb' Hb). reflexivity.
    + rewrite assign_same in Hb. injection Hb as <-.
      rewrite assign_other in Ha by assumption.
      exfalso. apply (Hother a Ha' Ha). reflexivity.
    + rewrite assign_other in Ha, Hb by assumption.
      apply (Halias _ _ _ Ha Hb).
Qed.

(** The invariant reads the table pointwise and the usage set bitwise. *)
Lemma inv_ext (f g : jtag_Signal -> option Z) (u v : Z) :
  (forall x, f x = g x) ->
  (forall q, Z.testbit u q = Z.testbit v q) ->
  usage_matches f u /\ no_aliasing f ->
  usage_matches g v /\ no_aliasing g.
Proof.
  intros Hfg Huv [Hmatch Halias]. split.
  - intros q. rewrite <- Huv. split.
    + intros Hbit. apply Hmatch in Hbit as [x Hx]. exists x. congruence.
    + intros [x Hx]. apply Hmatch. exists x. congruence.
  - intros a b q Ha Hb. rewrite <- Hfg in Ha, Hb.
    apply (Halias _ _ _ Ha Hb).
Qed.

Lemma Init_inv (s : jtag) : signal_pin_inv (jtag_Init s).
Proof.
  split; cbn [jtag_Init jtag_Signals jtag_PinUsage].
  - intros q. change 15 with (Z.ones 4).
    rewrite Z.testbit_ones, andb_true_iff, Z.leb_le, Z.ltb_lt by lia.
    split.
    + intros Hq.
      assert (Hcases : q = 0 \/ q = 1 \/ q = 2 \/ q = 3) by lia.
      destruct Hcases as [-> | [-> | [-> | ->]]];
        [exists JTAG_SIGNAL_TCK | exists JTAG_SIGNAL_TMS
        |exists JTAG_SIGNAL_TDI | exists JTAG_SIGNAL_TDO]; reflexivity.
    + intros [x Hx]. destruct x; inversion Hx; lia.
  - intros a b q Ha Hb.
    destruct a; inversion Ha; subst q; destruct b; inversion Hb; reflexivity.
Qed.

Lemma Cfg_inv (sig : jtag_Signal) (pin : option Z) (s : jtag) :
  signal_pin_inv s -> signal_pin_inv (snd (jtag_Cfg sig pin s)).
Proof.
  intros [Hmatch Halias]. unfold jtag_Cfg.
  destruct pin as [p|].
  - destruct ((0 <=? p) && (p <? JTAG_PIN_MAX)) eqn:Hrange;
      cbn [negb]; [|split; assumption].
    apply andb_true_iff in Hrange as [Hlo _]. apply Z.leb_le in Hlo.
    unfold claimed_by_other.
    destruct (jtag_Signals s sig) as [old|] eqn:Hsig.
    + destruct (old =? p) eqn:Hold.
      * (* the signal keeps its pin *)
        apply Z.eqb_eq in Hold; subst old.
        rewrite andb_false_r. cbn [snd].
        unfold signal_pin_inv.
        rewrite Signals_claim_pin, PinUsage_claim_pin.
        apply (inv_ext (jtag_Signals s) _ (jtag_PinUsage s) _);
          [| |split; assumption].
        -- intros x. unfold assign.
           destruct (jtag_Signal_eqb_spec x sig); congruence.
        -- intros q. rewrite testbit_set_bits by assumption.
           destruct (Z.eqb_spec p q) as [<-|]; [|reflexivity].
           cbn [orb]. apply Hmatch. eauto.
      * (* the signal moves from [old] to [p] *)
        cbn [negb]. rewrite andb_true_r.
        destruct (Z.testbit (jtag_PinUsage s) p) eqn:Hfree;
          [split; assumption|].
        cbn [snd]. unfold signal_pin_inv.
        rewrite Signals_claim_pin, PinUsage_claim_pin.
        cbn [release_pin set_PinUsage jtag_Signals jtag_PinUsage].
        destruct (release_keeps_inv _ _ Hmatch Halias sig old Hsig)
          as [Hmatch' Halias'].
        apply (inv_ext
                 (assign sig (Some p) (assign sig None (jtag_Signals s))) _
                 (set_bits (clear_bits (jtag_PinUsage s) (Z.shiftl 1 old))
                    (Z.shiftl 1 p)) _).
        -- intros x. unfold assign.
           destruct (jtag_Signal_eqb x sig); reflexivity.
        -- reflexivity.
        -- apply claim_keeps_inv; try assumption.
           ++ apply assign_same.
           ++ rewrite testbit_clear_bits, Hfree. reflexivity.
    + (* the signal held no pin *)
      cbn [negb]. rewrite andb_true_r.
      destruct (Z.testbit (jtag_PinUsage s) p) eqn:Hfree;
        [split; assumption|].
      cbn [snd]. unfold signal_pin_inv.
      rewrite Signals_claim_pin, PinUsage_claim_pin.
      apply claim_keeps_inv; assumption.
  - destruct (jtag_Signals s sig) as [old|] eqn:Hsig; [|split; assumption].
    cbn [snd]. unfold signal_pin_inv.
    cbn [release_pin set_Signals set_PinUsage jtag_Signals jtag_PinUsage].
    apply release_keeps_inv; assumption.
Qed.

(** ** The scenarios of [test/tjtag.c] on the model *)

(** Each assertion of a scenario is settled by running the model. *)
Ltac scenario :=
  repeat match goal with |- _ /\ _ => split end;
  vm_compute; first [reflexivity | discriminate].

(** [jtag_TestInitSignalAlloc] and [jtag_TestInitRegisterSetup]: from
    registers and tables full of 0xABCD1234. *)
Example test_Init :
  let garbage :=
    mk_jtag (fun _ => Some 0xABCD1234) 0xABCD1234 0xABCD1234 0xABCD1234
      0xABCD1234 0xABCD1234 0xABCD1234 0xABCD1234 0xABCD1234 0 in
  let s := jtag_Init garbage in
  jtag_Signals s JTAG_SIGNAL_TCK = Some 0
  /\ jtag_Signals s JTAG_SIGNAL_TMS = Some 1
  /\ jtag_Signals s JTAG_SIGNAL_TDI = Some 2
  /\ jtag_Signals s JTAG_SIGNAL_TDO = Some 3
  /\ jtag_Signals s JTAG_SIGNAL_TRST = JTAG_SIGNAL_NOT_ALLOCATED
  /\ jtag_PinUsage s = 0x0F
  /\ GPIOD_MODER s = 0x15
  /\ GPIOD_OTYPER s = 0
  /\ Z.land (GPIOD_OSPEEDR s) 0x55555555 = 0
  /\ GPIOD_PUPDR s = 0
  /\ GPIOD_ODR s = 0
  /\ RCC_AHBENR s = Z.shiftl 1 20
  /\ RCC_AHBENR (jtag_Init (set_AHBENR 0xFFFFFFFF s)) = 0xFFFFFFFF.
Proof. cbv zeta. unfold fails_unchanged. scenario. Qed.

(** [jtag_TestSignalConfigSetInvalid] *)
Example test_SignalConfigSetInvalid :
  let s1 := snd (jtag_Cfg JTAG_SIGNAL_TMS JTAG_SIGNAL_NOT_ALLOCATED
                   (jtag_Init zeroed)) in
  let s2 := snd (jtag_Cfg JTAG_SIGNAL_TMS (Some 7) s1) in
  fails_unchanged JTAG_SIGNAL_TMS (Some 22) s1
  /\ GPIOD_MODER s1 = 0x11
  /\ jtag_PinUsage s1 = 0x0D
  /\ jtag_Signals s1 JTAG_SIGNAL_TMS = JTAG_SIGNAL_NOT_ALLOCATED
  /\ jtag_Signals s2 JTAG_SIGNAL_TMS = Some 7
  /\ fails_unchanged JTAG_SIGNAL_TMS (Some 22) s2.
Proof. cbv zeta. unfold fails_unchanged. scenario. Qed.

(** [jtag_TestSignalConfigUnSet] *)
Example test_SignalConfigUnSet :
  let s1 := jtag_Set JTAG_SIGNAL_TCK true
              (snd (jtag_Cfg JTAG_SIGNAL_TCK (Some 5) zeroed)) in
  let r := jtag_Cfg JTAG_SIGNAL_TCK JTAG_SIGNAL_NOT_ALLOCATED s1 in
  fst r = true
  /\ Z.land (GPIOD_MODER (snd r)) (Z.shiftl 3 (5 * 2)) = 0
  /\ Z.land (jtag_PinUsage (snd r)) (Z.shiftl 1 5) = 0
  /\ jtag_Signals (snd r) JTAG_SIGNAL_TCK = JTAG_SIGNAL_NOT_ALLOCATED
  /\ GPIOD_BSRR (snd r) = Z.shiftl 1 5.
Proof. cbv zeta. unfold fails_unchanged. scenario. Qed.

(** [jtag_TestSignalConfigAlreadySetPin] *)
Example test_SignalConfigAlreadySetPin :
  let s1 := jtag_Set JTAG_SIGNAL_TCK true
              (snd (jtag_Cfg JTAG_SIGNAL_TCK (Some 5) zeroed)) in
  fails_unchanged JTAG_SIGNAL_TMS (Some 5) s1
  /\ jtag_Signals s1 JTAG_SIGNAL_TMS = JTAG_SIGNAL_NOT_ALLOCATED
  /\ jtag_Signals s1 JTAG_SIGNAL_TCK = Some 5.
Proof. cbv zeta. unfold fails_unchanged. scenario. Qed.

(** [jtag_TestSignalConfigAlreadySetSig] *)
Example test_SignalConfigAlreadySetSig :
  let s1 := jtag_Set JTAG_SIGNAL_TCK true
              (snd (jtag_Cfg JTAG_SIGNAL_TCK (Some 7) zeroed)) in
  let r := jtag_Cfg JTAG_SIGNAL_TCK (Some 5) s1 in
  fst r = true
  /\ Z.land (jtag_PinUsage (snd r)) (Z.shiftl 1 7) = 0
  /\ Z.land (GPIOD_MODER (snd r)) (Z.shiftl 3 (7 * 2)) = 0
  /\ GPIOD_BSRR (snd r) = Z.shiftl 1 7
  /\ Z.land (jtag_PinUsage (snd r)) (Z.shiftl 1 5) <> 0
  /\ Z.land (GPIOD_MODER (snd r)) (Z.shiftl 3 (5 * 2)) = Z.shiftl 1 (5 * 2)
  /\ jtag_Signals (snd r) JTAG_SIGNAL_TCK = Some 5.
Proof. cbv zeta. unfold fails_unchanged. scenario. Qed.

(** [jtag_TestSetAndClear], [jtag_TestSetInput], [jtag_TestIsAllocated] *)
Example test_Set :
  let s := set_BSRR 0 (snd (jtag_Cfg JTAG_SIGNAL_TRST (Some 5)
                              (jtag_Init zeroed))) in
  GPIOD_BSRR (jtag_Set JTAG_SIGNAL_TRST true s) = Z.shiftl 1 5
  /\ GPIOD_BSRR (jtag_Set JTAG_SIGNAL_TRST false s) = Z.shiftl 1 (5 + 16)
  /\ jtag_Set JTAG_SIGNAL_TDO true s = s
  /\ jtag_Set JTAG_SIGNAL_TDO false s = s
  /\ jtag_IsAllocated JTAG_SIGNAL_TRST (jtag_Init zeroed) = false
  /\ jtag_IsAllocated JTAG_SIGNAL_TRST s = true.
Proof. cbv zeta. unfold fails_unchanged. scenario. Qed.

(** ** The claims *)

(** C2: a failing [jtag_Cfg] changes nothing.  Whenever the flag is false
    the state after the call is the state before it, usage set, assignment
    table and registers alike; a pin outside 0..15 makes the call fail, and
    so does, in a state that satisfies the invariant, a pin that another
    signal holds. *)
Theorem Cfg_failure_changes_nothing (sig : jtag_Signal) (pin : option Z)
  (s : jtag) :
  (fst (jtag_Cfg sig pin s) = false -> snd (jtag_Cfg sig pin s) = s)
  /\ (forall p, pin = Some p -> p < 0 \/ JTAG_PIN_MAX <= p ->
       fails_unchanged sig pin s)
  /\ (forall p other, pin = Some p -> signal_pin_inv s ->
       other <> sig -> jtag_Signals s other = Some p ->
       fails_unchanged sig pin s).
Proof.
  unfold fails_unchanged. split; [|split].
  - unfold jtag_Cfg. destruct pin as [p|].
    + destruct (negb _); [reflexivity|].
      destruct (claimed_by_other sig p s); [reflexivity|].
      cbn [fst]. discriminate.
    + destruct (jtag_Signals s sig); cbn [fst]; [discriminate|reflexivity].
  - intros p -> Hout. unfold jtag_Cfg.
    replace ((0 <=? p) && (p <? JTAG_PIN_MAX)) with false; [reflexivity|].
    symmetry. apply andb_false_iff.
    destruct Hout; [left; apply Z.leb_gt | right; apply Z.ltb_ge]; assumption.
  - intros p other -> [Hmatch Halias] Hne Hother. unfold jtag_Cfg.
    destruct (negb _); [reflexivity|].
    replace (claimed_by_other sig p s) with true; [reflexivity|].
    symmetry. unfold claimed_by_other. apply andb_true_iff. split.
    + apply Hmatch. eauto.
    + destruct (jtag_Signals s sig) as [old|] eqn:Hsig; [|reflexivity].
      apply negb_true_iff, Z.eqb_neq. intros ->.
      apply Hne. apply (Halias _ _ _ Hother Hsig).
Qed.

Lemma Cfg_failure_changes_nothing_witness :
  let s := jtag_Init zeroed in
  (fst (jtag_Cfg JTAG_SIGNAL_TMS (Some 22) s) = false /\
   snd (jtag_Cfg JTAG_SIGNAL_TMS (Some 22) s) = s)
  /\ ((22 < 0 \/ JTAG_PIN_MAX <= 22) /\
      fails_unchanged JTAG_SIGNAL_TMS (Some 22) s)
  /\ (signal_pin_inv s /\ JTAG_SIGNAL_TCK <> JTAG_SIGNAL_TMS /\
      jtag_Signals s JTAG_SIGNAL_TCK = Some 0 /\
      fails_unchanged JTAG_SIGNAL_TMS (Some 0) s).
Proof.
  intros s.
  assert (Hout : 22 < 0 \/ JTAG_PIN_MAX <= 22)
    by (right; unfold JTAG_PIN_MAX; lia).
  assert (Hne : JTAG_SIGNAL_TCK <> JTAG_SIGNAL_TMS) by discriminate.
  pose proof (Init_inv zeroed) as Hinv.
  split; [split; [reflexivity|]|split; [split; [exact Hout|]|]].
  - apply (proj1 (Cfg_failure_changes_nothing JTAG_SIGNAL_TMS (Some 22) s)).
    reflexivity.
  - apply (proj1 (proj2 (Cfg_failure_changes_nothing
                           JTAG_SIGNAL_TMS (Some 22) s)) 22 eq_refl Hout).
  - split; [exact Hinv|]. split; [exact Hne|]. split; [reflexivity|].
    apply (proj2 (proj2 (Cfg_failure_changes_nothing
                           JTAG_SIGNAL_TMS (Some 0) s))
             0 JTAG_SIGNAL_TCK eq_refl Hinv Hne eq_refl).
Defined.

(** C3: [jtag_Init] establishes the invariant of the signal/pin state and
    every [jtag_Cfg], failing or not, preserves it: the usage set has
    exactly the bits of the assigned pins, and no pin holds two signals. *)
Theorem inv_established_and_preserved (sig : jtag_Signal) (pin : option Z)
  (s : jtag) :
  signal_pin_inv (jtag_Init s)
  /\ (signal_pin_inv s -> signal_pin_inv (snd (jtag_Cfg sig pin s))).
Proof.
  split; [apply Init_inv | apply Cfg_inv].
Qed.

Lemma inv_established_and_preserved_witness :
  let s := jtag_Init zeroed in
  signal_pin_inv s
  /\ signal_pin_inv (snd (jtag_Cfg JTAG_SIGNAL_TRST (Some 7) s))
  /\ signal_pin_inv (snd (jtag_Cfg JTAG_SIGNAL_TMS (Some 0) s)).
Proof.
  intros s.
  pose proof (proj1 (inv_established_and_preserved
                       JTAG_SIGNAL_TRST (Some 7) zeroed)) as Hinv.
  split; [exact Hinv|]. split.
  - apply (proj2 (inv_established_and_preserved
                    JTAG_SIGNAL_TRST (Some 7) s)). exact Hinv.
  - apply (proj2 (inv_established_and_preserved
                    JTAG_SIGNAL_TMS (Some 0) s)). exact Hinv.
Defined.

End JtagFacts.

(** * Facts about the TAP state engine *)

Module TAPFacts.
Import JtagTAP.
Local Open Scope tap_scope.

Lemma state_eqb_eq (a b : jtagTAP_TAPState) : (a == b) = true <-> a = b.
Proof.
  unfold state_eqb; split.
  - destruct a, b; simpl; intros E; try reflexivity; discriminate E.
  - intros ->; apply Z.eqb_refl.
Qed.

Lemma state_eqb_refl (a : jtagTAP_TAPState) : (a == a) = true.
Proof. apply state_eqb_eq; reflexivity. Qed.

Section AnyPort.
Context {H : Type} {P : JtagPort H}.

Lemma delay_loop_eq (fuel : nat) (count : Z) :
  delay_loop (H:=H) fuel count =
  if (count + 1) mod 2 ^ 32 <? delay_count then
    match fuel with
    | O => out_of_fuel
    | S fuel' => asm_nop ;; delay_loop fuel' ((count + 1) mod 2 ^ 32)
    end
  else ret tt.
Proof. destruct fuel; reflexivity. Qed.

Lemma delay_count_small : 0 < delay_count < 2 ^ 32.
Proof. unfold delay_count; lia. Qed.

Lemma delay_loop_runs (k : nat) :
  forall (fuel : nat) (count : Z) (w : tap H),
    0 <= count ->
    count + 1 + Z.of_nat k = delay_count ->
    (k <= fuel)%nat ->
    delay_loop fuel count w =
    Some (tt, mk_tap (TAPState w) (Nat.iter k port_nop (port w))).
Proof.
  pose proof delay_count_small as Hd.
  induction k as [|k IH]; intros fuel count w Hc Hk Hf;
    rewrite delay_loop_eq, Z.mod_small by lia.
  - replace (count + 1 <? delay_count) with false
      by (symmetry; apply Z.ltb_ge; lia).
    destruct w; reflexivity.
  - replace (count + 1 <? delay_count) with true
      by (symmetry; apply Z.ltb_lt; lia).
    destruct fuel as [|fuel]; [lia|].
    unfold bind, asm_nop.
    rewrite IH by lia.
    simpl TAPState; simpl port.
    rewrite Nat.iter_succ_r; reflexivity.
Qed.

(** The busy wait always completes: [delay_count - 1] passes. *)
Lemma spin_delay_runs (w : tap H) :
  spin_delay w =
  Some (tt, mk_tap (TAPState w)
              (Nat.iter (Z.to_nat (delay_count - 1)) port_nop (port w))).
Proof.
  unfold spin_delay.
  apply delay_loop_runs; pose proof delay_count_small; lia.
Qed.

Lemma while_eq (fuel : nat) (cond : M H bool) (body : M H unit) :
  while_ fuel cond body =
  (c <- cond ;;
   if c then
     match fuel with
     | O => out_of_fuel
     | S fuel' => body ;; while_ fuel' cond body
     end
   else ret tt).
Proof. destruct fuel; reflexivity. Qed.

Lemma loop_done (fuel : nat) (target : jtagTAP_TAPState) (h : H) :
  while_ fuel (not_at target) (transition target) (mk_tap target h) =
  Some (tt, mk_tap target h).
Proof.
  rewrite while_eq. unfold bind, not_at, get_TAPState, ret; simpl.
  rewrite state_eqb_refl; reflexivity.
Qed.

Lemma loop_step (fuel : nat) (target s : jtagTAP_TAPState) (h : H) :
  s <> target ->
  while_ (S fuel) (not_at target) (transition target) (mk_tap s h) =
  (transition target ;; while_ fuel (not_at target) (transition target))
    (mk_tap s h).
Proof.
  intros Hne. rewrite while_eq.
  unfold bind, not_at, get_TAPState, ret; simpl.
  destruct (s == target) eqn:E; [apply state_eqb_eq in E; contradiction|].
  reflexivity.
Qed.

Lemma next_state_unknown (target : jtagTAP_TAPState) :
  next_state target JTAGTAP_STATE_UNKNOWN = JTAGTAP_STATE_RESET.
Proof. vm_compute; reflexivity. Qed.

(** On any port a transition completes, and what it leaves in
    [TAPState] does not depend on the port. *)
Lemma transition_state (target : jtagTAP_TAPState) (w : tap H) :
  exists h',
    transition target w =
    Some (tt, mk_tap (next_state target (TAPState w)) h').
Proof.
  destruct w as [s h]; destruct s.
  1: {
    simpl TAPState. rewrite next_state_unknown.
    unfold transition, bind, get_TAPState, jtag_IsAllocated.
    cbn [TAPState port].
    destruct (port_IsAllocated JTAG_SIGNAL_TRST h).
    - unfold jtag_Set at 1 2. cbn [TAPState port].
      rewrite spin_delay_runs.
      eexists; reflexivity.
    - eexists; reflexivity.
  }
  all: destruct target; eexists; reflexivity.
Qed.

Lemma loop_reaches (fuel0 : nat) (target : jtagTAP_TAPState) :
  forall (s : jtagTAP_TAPState) (n : nat),
    hops fuel0 target s = Some n ->
    forall (fuel : nat) (h : H),
      (n <= fuel)%nat ->
      exists h',
        while_ fuel (not_at target) (transition target) (mk_tap s h) =
        Some (tt, mk_tap target h').
Proof.
  induction fuel0 as [|fuel0 IH]; intros s n Hn fuel h Hf; simpl in Hn;
    destruct (s == target) eqn:E.
  - apply state_eqb_eq in E; subst s. exists h; apply loop_done.
  - discriminate Hn.
  - apply state_eqb_eq in E; subst s. exists h; apply loop_done.
  - destruct (hops fuel0 target (next_state target s)) as [k|] eqn:Hk;
      [|discriminate Hn].
    injection Hn as <-.
    destruct fuel as [|fuel]; [lia|].
    rewrite loop_step
      by (intros ->; rewrite state_eqb_refl in E; discriminate E).
    unfold bind at 1.
    destruct (transition_state target (mk_tap s h)) as [h1 ->].
    simpl TAPState.
    apply (IH _ _ Hk); lia.
Qed.

End AnyPort.

(** Eight transitions are enough between any two states. *)
Lemma hops_bound (target s : jtagTAP_TAPState) :
  target <> JTAGTAP_STATE_UNKNOWN ->
  exists n, hops 8 target s = Some n /\ (n <= 8)%nat.
Proof.
  intros Hne.
  destruct target; try contradiction; destruct s; vm_compute;
    eexists; (split; [reflexivity|]); lia.
Qed.

(** C1: for every named target other than Unknown and every starting
    state, on any port, [jtagTAP_SetState] returns once its transition loop
    is allowed eight iterations, and [jtagTAP_GetState] then reads the
    target. *)
Theorem SetState_reaches_target {H : Type} {P : JtagPort H}
  (target : jtagTAP_TAPState) (w : tap H) (fuel : nat) :
  target <> JTAGTAP_STATE_UNKNOWN ->
  (8 <= fuel)%nat ->
  exists w',
    jtagTAP_SetState fuel target w = Some (tt, w')
    /\ jtagTAP_GetState w' = Some (target, w').
Proof.
  intros Hne Hfuel. destruct w as [s h].
  assert (Hreach : forall s0 h0, exists h',
             while_ fuel (not_at target) (transition target) (mk_tap s0 h0)
             = Some (tt, mk_tap target h')).
  { intros s0 h0. destruct (hops_bound target s0 Hne) as (n & Hn & Hle).
    apply (loop_reaches 8 target s0 n Hn); lia. }
  unfold jtagTAP_SetState.
  destruct (target == JTAGTAP_STATE_UNKNOWN) eqn:EU;
    [apply state_eqb_eq in EU; contradiction|].
  cbn [negb]. unfold bind at 1.
  destruct (target == JTAGTAP_STATE_RESET) eqn:ER.
  - unfold jtag_IsAllocated at 1; cbn [port].
    destruct (port_IsAllocated JTAG_SIGNAL_TRST h).
    + unfold bind at 1 2 3 4, jtag_Set at 1 2; cbn [TAPState port].
      rewrite spin_delay_runs.
      unfold bind, jtag_Set, set_TAPState; cbn [TAPState port].
      apply state_eqb_eq in ER; subst target.
      rewrite loop_done. eexists; split; reflexivity.
    + unfold bind at 1, ret at 1.
      destruct (Hreach s h) as [h' ->]. eexists; split; reflexivity.
  - unfold ret at 1, bind at 1, ret at 1.
    destruct (Hreach s h) as [h' ->]. eexists; split; reflexivity.
Qed.

Lemma SetState_reaches_target_witness :
  JTAGTAP_STATE_IR_EXIT2 <> JTAGTAP_STATE_UNKNOWN
  /\ (8 <= 8)%nat
  /\ exists w',
       jtagTAP_SetState 8 JTAGTAP_STATE_IR_EXIT2
         (mk_tap JTAGTAP_STATE_DR_SHIFT (mk_recorder (with_trst false) []))
       = Some (tt, w')
       /\ jtagTAP_GetState w' = Some (JTAGTAP_STATE_IR_EXIT2, w').
Proof.
  split; [discriminate|]. split; [lia|].
  apply SetState_reaches_target; [discriminate | lia].
Defined.

(** ** Runs on the recording port *)

Lemma rev_nops : rev nops = nops.
Proof.
  unfold nops. generalize (Z.to_nat (delay_count - 1)) as k.
  induction k as [|k IH]; [reflexivity|].
  simpl. rewrite IH. clear IH.
  induction k as [|k IH]; [reflexivity|]. simpl. rewrite IH. reflexivity.
Qed.

Lemma iter_nop_records (k : nat) (r : recorder) :
  Nat.iter k port_nop r = mk_recorder (allocated r) (repeat EvNop k ++ calls r).
Proof.
  induction k as [|k IH]; [destruct r; reflexivity|].
  rewrite Nat.iter_succ, IH. reflexivity.
Qed.

Lemma spin_delay_records (w : tap recorder) :
  spin_delay w =
  Some (tt, mk_tap (TAPState w)
              (mk_recorder (allocated (port w)) (nops ++ calls (port w)))).
Proof. rewrite spin_delay_runs, iter_nop_records. reflexivity. Qed.

Lemma clock_pulses_reset_calls : clock_pulses reset_calls = 0%nat.
Proof.
  unfold reset_calls, clock_pulses, nops.
  generalize (Z.to_nat (delay_count - 1)) as k.
  intros k; cbn [app filter is_clock length]. f_equal.
  induction k as [|k IH]; [reflexivity|]. exact IH.
Qed.

(** Two traces are compared with the recorded calls put in call order. *)
Ltac trace_eq :=
  unfold trace; rewrite ?rev_append_rev, ?app_nil_r; cbn;
  rewrite ?rev_app_distr, ?rev_nops; cbn [rev app];
  rewrite <- ?app_assoc; cbn [app]; reflexivity.

(** Run the statements in front of the goal as far as they go. *)
Ltac run :=
  cbn;
  try match goal with
      | |- context [while_ ?f ?c ?b] => set (rest := while_ f c b)
      end;
  repeat (progress unfold jtagTAP_SetState, bind, transition, not_at,
            get_TAPState, ret, jtag_IsAllocated, jtag_Set, jtag_Clock,
            set_TAPState;
          cbn).

(** The rest of the loop, entered at the target, is over. *)
Ltac at_target :=
  match goal with
  | rest := while_ _ _ _ |- _ => subst rest; rewrite loop_done
  end.

(** A completed run: the final world is on display, its state, allocation
    and trace remain to be read off. *)
Ltac ran :=
  eexists; split; [reflexivity|];
  split; [reflexivity|]; split; [reflexivity|]; trace_eq.

Lemma reset_fast_path (fuel : nat) (w : tap recorder) :
  allocated (port w) JTAG_SIGNAL_TRST = true ->
  performs (jtagTAP_SetState fuel JTAGTAP_STATE_RESET) w
    JTAGTAP_STATE_RESET reset_calls.
Proof.
  destruct w as [s [alloc log]]; cbn [port allocated]; intros Halloc.
  unfold performs, jtagTAP_SetState, reset_calls. cbn.
  rewrite Halloc. unfold bind at 1 2 3 4, jtag_Set at 1 2. cbn [TAPState port].
  rewrite spin_delay_records.
  pose proof rev_nops as Hrev. revert Hrev. generalize nops as ns.
  intros ns Hrev. cbn. rewrite loop_done.
  eexists; split; [reflexivity|].
  split; [reflexivity|]; split; [reflexivity|].
  unfold trace; rewrite !rev_append_rev, !app_nil_r; cbn.
  rewrite rev_app_distr, Hrev; cbn. rewrite <- !app_assoc. reflexivity.
Qed.

(** C4: from Unknown with TRST allocated, one call
    [jtagTAP_SetState(Reset)] drives TMS high, TRST low, runs the busy wait,
    drives TRST high, makes no clock pulse and leaves the state at Reset. *)
Theorem reset_from_unknown_with_trst (fuel : nat) (w : tap recorder) :
  TAPState w = JTAGTAP_STATE_UNKNOWN ->
  allocated (port w) JTAG_SIGNAL_TRST = true ->
  performs (jtagTAP_SetState fuel JTAGTAP_STATE_RESET) w JTAGTAP_STATE_RESET
    ([EvSet JTAG_SIGNAL_TMS true; EvSet JTAG_SIGNAL_TRST false]
       ++ nops ++ [EvSet JTAG_SIGNAL_TRST true])
  /\ clock_pulses
       ([EvSet JTAG_SIGNAL_TMS true; EvSet JTAG_SIGNAL_TRST false]
          ++ nops ++ [EvSet JTAG_SIGNAL_TRST true]) = 0%nat.
Proof.
  intros _ Halloc. split.
  - apply (reset_fast_path fuel w Halloc).
  - apply clock_pulses_reset_calls.
Qed.

Lemma reset_from_unknown_with_trst_witness :
  let w := mk_tap JTAGTAP_STATE_UNKNOWN (mk_recorder (with_trst true) []) in
  TAPState w = JTAGTAP_STATE_UNKNOWN
  /\ allocated (port w) JTAG_SIGNAL_TRST = true
  /\ performs (jtagTAP_SetState 0 JTAGTAP_STATE_RESET) w JTAGTAP_STATE_RESET
       ([EvSet JTAG_SIGNAL_TMS true; EvSet JTAG_SIGNAL_TRST false]
          ++ nops ++ [EvSet JTAG_SIGNAL_TRST true])
  /\ clock_pulses
       ([EvSet JTAG_SIGNAL_TMS true; EvSet JTAG_SIGNAL_TRST false]
          ++ nops ++ [EvSet JTAG_SIGNAL_TRST true]) = 0%nat.
Proof.
  intros w. split; [reflexivity|]. split; [reflexivity|].
  apply (reset_from_unknown_with_trst 0 w); reflexivity.
Defined.

(** What a transition from a state other than Unknown does on the
    recording port: one TMS level, one clock pulse, the next state. *)
Lemma transition_one_pulse (target : jtagTAP_TAPState) (w : tap recorder) :
  TAPState w <> JTAGTAP_STATE_UNKNOWN -> one_pulse_step target w.
Proof.
  destruct w as [s [alloc log]]; cbn [TAPState]; intros Hs.
  unfold one_pulse_step, performs.
  destruct s; try contradiction; destruct target; cbn;
    first [ exists true; ran | exists false; ran ].
Qed.

(** What the transition from Unknown does: the hardware reset when TRST is
    allocated, else TMS high and five clock pulses; then Reset. *)
Lemma transition_from_unknown (target : jtagTAP_TAPState) (w : tap recorder) :
  TAPState w = JTAGTAP_STATE_UNKNOWN ->
  performs (transition target) w JTAGTAP_STATE_RESET
    (if allocated (port w) JTAG_SIGNAL_TRST then reset_calls
     else [EvSet JTAG_SIGNAL_TMS true;
           EvClock; EvClock; EvClock; EvClock; EvClock]).
Proof.
  destruct w as [s [alloc log]]; cbn [TAPState port allocated]; intros ->.
  unfold performs, reset_calls. cbn.
  destruct (alloc JTAG_SIGNAL_TRST).
  - unfold bind at 1 2 3 4, jtag_Set at 1 2. cbn [TAPState port].
    rewrite spin_delay_records.
    pose proof rev_nops as Hrev. revert Hrev. generalize nops as ns.
    intros ns Hrev. cbn.
    eexists; split; [reflexivity|].
    split; [reflexivity|]; split; [reflexivity|].
    unfold trace; rewrite !rev_append_rev, !app_nil_r; cbn.
    rewrite rev_app_distr, Hrev; cbn. rewrite <- !app_assoc. reflexivity.
  - cbn. ran.
Qed.

(** C5, as the code has it: an iteration of the transition loop from any
    state but Unknown sets TMS to one level, pulses the clock once and
    leaves the next state in [TAPState]; the iteration from Unknown is the
    reset, with no clock pulse when TRST is allocated and with five
    otherwise. *)
Theorem transition_pulses (target : jtagTAP_TAPState) (w : tap recorder) :
  (TAPState w <> JTAGTAP_STATE_UNKNOWN -> one_pulse_step target w)
  /\ (TAPState w = JTAGTAP_STATE_UNKNOWN ->
      performs (transition target) w JTAGTAP_STATE_RESET
        (if allocated (port w) JTAG_SIGNAL_TRST then reset_calls
         else [EvSet JTAG_SIGNAL_TMS true;
               EvClock; EvClock; EvClock; EvClock; EvClock])).
Proof.
  split.
  - apply transition_one_pulse.
  - apply transition_from_unknown.
Qed.

Lemma transition_pulses_witness :
  let w := mk_tap JTAGTAP_STATE_DR_EXIT1 (mk_recorder (with_trst false) []) in
  let u := mk_tap JTAGTAP_STATE_UNKNOWN (mk_recorder (with_trst false) []) in
  (TAPState w <> JTAGTAP_STATE_UNKNOWN /\
   one_pulse_step JTAGTAP_STATE_DR_PAUSE w)
  /\ (TAPState u = JTAGTAP_STATE_UNKNOWN /\
      performs (transition JTAGTAP_STATE_DR_PAUSE) u JTAGTAP_STATE_RESET
        [EvSet JTAG_SIGNAL_TMS true;
         EvClock; EvClock; EvClock; EvClock; EvClock]).
Proof.
  intros w u. split; split.
  - discriminate.
  - apply (proj1 (transition_pulses JTAGTAP_STATE_DR_PAUSE w)). discriminate.
  - reflexivity.
  - apply (proj2 (transition_pulses JTAGTAP_STATE_DR_PAUSE u)). reflexivity.
Defined.

(** C5 as stated fails at the first iteration after [jtagTAP_Init]: from
    Unknown toward Idle with TRST unallocated the iteration makes five clock
    pulses, not one. *)
Lemma transition_from_unknown_not_one_pulse :
  let w := mk_tap JTAGTAP_STATE_UNKNOWN (mk_recorder (with_trst false) []) in
  jtagTAP_Init w = Some (tt, w)
  /\ JTAGTAP_STATE_IDLE <> JTAGTAP_STATE_UNKNOWN
  /\ TAPState w <> JTAGTAP_STATE_IDLE
  /\ ~ one_pulse_step JTAGTAP_STATE_IDLE w.
Proof.
  intros w. split; [reflexivity|]. split; [discriminate|].
  split; [discriminate|].
  intros (level & w' & Hrun & _ & _ & Htrace).
  vm_compute in Hrun. injection Hrun as <-.
  vm_compute in Htrace. discriminate Htrace.
Qed.

(** C6, as the code has it: [jtagTAP_SetState] with the current state as
    target makes no clock pulse and leaves the state as it is.  It makes no
    call at all, except when the state is Reset and TRST is allocated:
    there it makes the calls of the hardware reset. *)
Theorem SetState_current_is_noop (fuel : nat) (w : tap recorder) :
  let evs :=
    if (TAPState w == JTAGTAP_STATE_RESET)
       && allocated (port w) JTAG_SIGNAL_TRST
    then reset_calls else [] in
  performs (jtagTAP_SetState fuel (TAPState w)) w (TAPState w) evs
  /\ clock_pulses evs = 0%nat.
Proof.
  cbv zeta. destruct w as [s [alloc log]]. cbn [TAPState port allocated].
  destruct (alloc JTAG_SIGNAL_TRST) eqn:Halloc.
  - destruct (s == JTAGTAP_STATE_RESET) eqn:Es; cbn [andb].
    + apply state_eqb_eq in Es; subst s.
      split; [apply reset_fast_path; exact Halloc
             |apply clock_pulses_reset_calls].
    + split; [|reflexivity].
      unfold performs, jtagTAP_SetState.
      destruct s; try discriminate Es; cbn; rewrite ?loop_done; ran.
  - rewrite andb_false_r. split; [|reflexivity].
    unfold performs, jtagTAP_SetState.
    destruct s; cbn; rewrite ?Halloc; cbn; rewrite ?loop_done; ran.
Qed.

(** C6 as stated fails in Reset with TRST allocated:
    [jtagTAP_SetState(Reset)] is not a no-op there, it drives TMS and TRST
    again. *)
Lemma SetState_reset_in_reset_not_noop :
  let w := mk_tap JTAGTAP_STATE_RESET (mk_recorder (with_trst true) []) in
  TAPState w = JTAGTAP_STATE_RESET
  /\ ~ performs (jtagTAP_SetState 8 JTAGTAP_STATE_RESET) w
        JTAGTAP_STATE_RESET []
  /\ performs (jtagTAP_SetState 8 JTAGTAP_STATE_RESET) w
       JTAGTAP_STATE_RESET
       ([EvSet JTAG_SIGNAL_TMS true; EvSet JTAG_SIGNAL_TRST false]
          ++ nops ++ [EvSet JTAG_SIGNAL_TRST true]).
Proof.
  intros w. split; [reflexivity|].
  pose proof (reset_fast_path 8 w eq_refl) as Hreset.
  split; [|exact Hreset].
  intros (w1 & Hrun1 & _ & _ & Ht1).
  destruct Hreset as (w2 & Hrun2 & _ & _ & Ht2).
  rewrite Hrun1 in Hrun2. injection Hrun2 as <-.
  rewrite Ht1 in Ht2. apply app_inv_head in Ht2.
  unfold reset_calls in Ht2. cbn [app] in Ht2. discriminate Ht2.
Qed.

(** C7: with TRST allocated, [jtagTAP_SetState(Reset)] makes the calls of
    the hardware reset whatever the current state, Reset included; called
    twice, it makes them twice. *)
Theorem reset_redrives_every_time (fuel fuel' : nat) (w : tap recorder) :
  allocated (port w) JTAG_SIGNAL_TRST = true ->
  performs (jtagTAP_SetState fuel JTAGTAP_STATE_RESET) w
    JTAGTAP_STATE_RESET reset_calls
  /\ performs (jtagTAP_SetState fuel JTAGTAP_STATE_RESET ;;
               jtagTAP_SetState fuel' JTAGTAP_STATE_RESET) w
       JTAGTAP_STATE_RESET (reset_calls ++ reset_calls).
Proof.
  intros Halloc.
  pose proof (reset_fast_path fuel w Halloc) as Hfirst.
  split; [exact Hfirst|].
  destruct Hfirst as (w1 & Hrun1 & Hs1 & Ha1 & Ht1).
  assert (Halloc1 : allocated (port w1) JTAG_SIGNAL_TRST = true)
    by (rewrite Ha1; exact Halloc).
  destruct (reset_fast_path fuel' w1 Halloc1) as (w2 & Hrun2 & Hs2 & Ha2 & Ht2).
  exists w2. unfold bind. rewrite Hrun1.
  split; [exact Hrun2|]. split; [exact Hs2|].
  split; [congruence|].
  rewrite Ht2, Ht1, app_assoc. reflexivity.
Qed.

Lemma reset_redrives_every_time_witness :
  let w := mk_tap JTAGTAP_STATE_RESET (mk_recorder (with_trst true) []) in
  allocated (port w) JTAG_SIGNAL_TRST = true
  /\ performs (jtagTAP_SetState 0 JTAGTAP_STATE_RESET) w
       JTAGTAP_STATE_RESET reset_calls
  /\ performs (jtagTAP_SetState 0 JTAGTAP_STATE_RESET ;;
               jtagTAP_SetState 0 JTAGTAP_STATE_RESET) w
       JTAGTAP_STATE_RESET (reset_calls ++ reset_calls).
Proof.
  intros w. split; [reflexivity|].
  apply (reset_redrives_every_time 0 0 w). reflexivity.
Defined.

(** C8: from Unknown with TRST unallocated, [jtagTAP_SetState(Idle)] goes
    through Reset to Idle: TMS high and five clock pulses, then TMS low and
    one clock pulse, six pulses in all. *)
Theorem idle_from_unknown_without_trst (fuel : nat) (w : tap recorder) :
  (2 <= fuel)%nat ->
  TAPState w = JTAGTAP_STATE_UNKNOWN ->
  allocated (port w) JTAG_SIGNAL_TRST = false ->
  let evs := [EvSet JTAG_SIGNAL_TMS true;
              EvClock; EvClock; EvClock; EvClock; EvClock;
              EvSet JTAG_SIGNAL_TMS false; EvClock] in
  performs (jtagTAP_SetState fuel JTAGTAP_STATE_IDLE) w
    JTAGTAP_STATE_IDLE evs
  /\ (exists w',
        jtagTAP_SetState fuel JTAGTAP_STATE_IDLE w = Some (tt, w')
        /\ walks JTAGTAP_STATE_IDLE w
             [JTAGTAP_STATE_RESET; JTAGTAP_STATE_IDLE] w')
  /\ clock_pulses evs = 6%nat.
Proof.
  intros Hfuel Hs Halloc.
  destruct w as [s [alloc log]]; cbn [TAPState port allocated] in *; subst s.
  destruct fuel as [|[|fuel]]; try lia.
  split; [|split; [|reflexivity]].
  - unfold performs. run. rewrite Halloc. run. at_target. ran.
  - eexists; split.
    + run. rewrite Halloc. run. at_target. reflexivity.
    + cbn [walks].
      eexists; split; [run; rewrite Halloc; run; reflexivity|].
      split; [reflexivity|].
      eexists; split; [run; reflexivity|]. split; reflexivity.
Qed.

Lemma idle_from_unknown_without_trst_witness :
  let w := mk_tap JTAGTAP_STATE_UNKNOWN (mk_recorder (with_trst false) []) in
  let evs := [EvSet JTAG_SIGNAL_TMS true;
              EvClock; EvClock; EvClock; EvClock; EvClock;
              EvSet JTAG_SIGNAL_TMS false; EvClock] in
  (2 <= 2)%nat
  /\ TAPState w = JTAGTAP_STATE_UNKNOWN
  /\ allocated (port w) JTAG_SIGNAL_TRST = false
  /\ performs (jtagTAP_SetState 2 JTAGTAP_STATE_IDLE) w
       JTAGTAP_STATE_IDLE evs
  /\ (exists w',
        jtagTAP_SetState 2 JTAGTAP_STATE_IDLE w = Some (tt, w')
        /\ walks JTAGTAP_STATE_IDLE w
             [JTAGTAP_STATE_RESET; JTAGTAP_STATE_IDLE] w')
  /\ clock_pulses evs = 6%nat.
Proof.
  intros w evs. split; [lia|]. split; [reflexivity|]. split; [reflexivity|].
  apply (idle_from_unknown_without_trst 2 w); [lia|reflexivity|reflexivity].
Defined.

(** C9: from Idle, [jtagTAP_SetState(IR-Shift)] sets TMS to 1, 1, 0, 0 with
    one clock pulse after each, goes through DR-Scan, IR-Scan and
    IR-Capture, and ends in IR-Shift. *)
Theorem ir_shift_from_idle (fuel : nat) (w : tap recorder) :
  (4 <= fuel)%nat ->
  TAPState w = JTAGTAP_STATE_IDLE ->
  performs (jtagTAP_SetState fuel JTAGTAP_STATE_IR_SHIFT) w
    JTAGTAP_STATE_IR_SHIFT
    [EvSet JTAG_SIGNAL_TMS true; EvClock;
     EvSet JTAG_SIGNAL_TMS true; EvClock;
     EvSet JTAG_SIGNAL_TMS false; EvClock;
     EvSet JTAG_SIGNAL_TMS false; EvClock]
  /\ (exists w',
        jtagTAP_SetState fuel JTAGTAP_STATE_IR_SHIFT w = Some (tt, w')
        /\ walks JTAGTAP_STATE_IR_SHIFT w
             [JTAGTAP_STATE_DR_SCAN; JTAGTAP_STATE_IR_SCAN;
              JTAGTAP_STATE_IR_CAPTURE; JTAGTAP_STATE_IR_SHIFT] w').
Proof.
  intros Hfuel Hs.
  destruct w as [s [alloc log]]; cbn [TAPState] in Hs; subst s.
  destruct fuel as [|[|[|[|fuel]]]]; try lia.
  split.
  - unfold performs. run. at_target. ran.
  - eexists; split.
    + run. at_target. reflexivity.
    + cbn [walks].
      repeat (eexists; split; [run; reflexivity|]; split; [reflexivity|]).
      reflexivity.
Qed.

Lemma ir_shift_from_idle_witness :
  let w := mk_tap JTAGTAP_STATE_IDLE (mk_recorder (with_trst false) []) in
  (4 <= 4)%nat
  /\ TAPState w = JTAGTAP_STATE_IDLE
  /\ performs (jtagTAP_SetState 4 JTAGTAP_STATE_IR_SHIFT) w
       JTAGTAP_STATE_IR_SHIFT
       [EvSet JTAG_SIGNAL_TMS true; EvClock;
        EvSet JTAG_SIGNAL_TMS true; EvClock;
        EvSet JTAG_SIGNAL_TMS false; EvClock;
        EvSet JTAG_SIGNAL_TMS false; EvClock]
  /\ (exists w',
        jtagTAP_SetState 4 JTAGTAP_STATE_IR_SHIFT w = Some (tt, w')
        /\ walks JTAGTAP_STATE_IR_SHIFT w
             [JTAGTAP_STATE_DR_SCAN; JTAGTAP_STATE_IR_SCAN;
              JTAGTAP_STATE_IR_CAPTURE; JTAGTAP_STATE_IR_SHIFT] w').
Proof.
  intros w. split; [lia|]. split; [reflexivity|].
  apply (ir_shift_from_idle 4 w); [lia|reflexivity].
Defined.

(** C10: the transition from IR-Scan sets TMS low, pulses the clock once
    and goes to IR-Capture when the target is one of IR-Capture..IR-Update;
    for every other target it sets TMS high, pulses the clock once and goes
    to Reset. *)
Theorem transition_from_ir_scan (target : jtagTAP_TAPState)
  (w : tap recorder) :
  TAPState w = JTAGTAP_STATE_IR_SCAN ->
  (In target ir_path ->
   performs (transition target) w JTAGTAP_STATE_IR_CAPTURE
     [EvSet JTAG_SIGNAL_TMS false; EvClock])
  /\ (~ In target ir_path ->
      performs (transition target) w JTAGTAP_STATE_RESET
        [EvSet JTAG_SIGNAL_TMS true; EvClock]).
Proof.
  destruct w as [s [alloc log]]; cbn [TAPState]; intros ->.
  unfold ir_path, performs. split; intros Hin.
  - destruct target; cbn in Hin;
      try (exfalso; intuition discriminate); cbn; ran.
  - destruct target;
      try (exfalso; apply Hin; cbn; tauto); cbn; ran.
Qed.

Lemma transition_from_ir_scan_witness :
  let w := mk_tap JTAGTAP_STATE_IR_SCAN (mk_recorder (with_trst false) []) in
  TAPState w = JTAGTAP_STATE_IR_SCAN
  /\ (In JTAGTAP_STATE_IR_PAUSE ir_path /\
      performs (transition JTAGTAP_STATE_IR_PAUSE) w JTAGTAP_STATE_IR_CAPTURE
        [EvSet JTAG_SIGNAL_TMS false; EvClock])
  /\ (~ In JTAGTAP_STATE_DR_SHIFT ir_path /\
      performs (transition JTAGTAP_STATE_DR_SHIFT) w JTAGTAP_STATE_RESET
        [EvSet JTAG_SIGNAL_TMS true; EvClock]).
Proof.
  intros w. split; [reflexivity|].
  assert (Hin : In JTAGTAP_STATE_IR_PAUSE ir_path) by (cbn; tauto).
  assert (Hout : ~ In JTAGTAP_STATE_DR_SHIFT ir_path)
    by (cbn; intuition discriminate).
  split; split.
  - exact Hin.
  - apply (proj1 (transition_from_ir_scan JTAGTAP_STATE_IR_PAUSE w eq_refl)).
    exact Hin.
  - exact Hout.
  - apply (proj2 (transition_from_ir_scan JTAGTAP_STATE_DR_SHIFT w eq_refl)).
    exact Hout.
Defined.

End TAPFacts.

(** * More facts about the TAP state engine *)

Module TAPMore.
Import JtagTAP TAPFacts.
Local Open Scope tap_scope.

(** ** Calls compose *)

Lemma performs_fun (m : M recorder unit) (w : tap recorder)
  (s1 s2 : jtagTAP_TAPState) (e1 e2 : list event) :
  performs m w s1 e1 -> performs m w s2 e2 -> s1 = s2 /\ e1 = e2.
Proof.
  intros (w1 & Hrun1 & Hs1 & _ & Ht1) (w2 & Hrun2 & Hs2 & _ & Ht2).
  rewrite Hrun1 in Hrun2. injection Hrun2 as <-.
  unfold jtagTAP_GetState, get_TAPState in Hs1, Hs2.
  injection Hs1 as Hs1. injection Hs2 as Hs2. split; [congruence|].
  rewrite Ht1 in Ht2. apply (app_inv_head _ _ _ Ht2).
Qed.

Lemma performs_seq (m k : M recorder unit) (w : tap recorder)
  (s1 s2 : jtagTAP_TAPState) (e1 e2 : list event) :
  performs m w s1 e1 ->
  (forall w1, TAPState w1 = s1 ->
              allocated (port w1) = allocated (port w) ->
              performs k w1 s2 e2) ->
  performs (m ;; k) w s2 (e1 ++ e2).
Proof.
  intros (w1 & Hrun1 & Hs1 & Ha1 & Ht1) Hk.
  unfold jtagTAP_GetState, get_TAPState in Hs1. injection Hs1 as Hs1.
  destruct (Hk w1 Hs1 Ha1) as (w2 & Hrun2 & Hs2 & Ha2 & Ht2).
  exists w2. unfold bind. rewrite Hrun1.
  split; [exact Hrun2|]. split; [exact Hs2|]. split; [congruence|].
  rewrite Ht2, Ht1, app_assoc. reflexivity.
Qed.

Lemma performs_on_start (m : M recorder unit) (s s' : jtagTAP_TAPState)
  (trst : bool) (evs : list event) :
  performs m (start_in s trst) s' evs ->
  exists w', m (start_in s trst) = Some (tt, w') /\ trace (port w') = evs.
Proof.
  intros (w' & Hrun & _ & _ & Ht). exists w'. split; [exact Hrun|].
  exact Ht.
Qed.

Lemma step_calls_unknown (target : jtagTAP_TAPState) (trst : bool) :
  step_calls target JTAGTAP_STATE_UNKNOWN trst = unknown_reset_calls trst.
Proof.
  destruct (performs_on_start _ _ _ _ _
              (transition_from_unknown target
                 (start_in JTAGTAP_STATE_UNKNOWN trst) eq_refl))
    as (w' & Hrun & Ht).
  unfold step_calls. rewrite Hrun. rewrite Ht.
  destruct trst; reflexivity.
Qed.

(** What one transition does, in any world. *)
Lemma transition_calls (target : jtagTAP_TAPState) (w : tap recorder) :
  performs (transition target) w (next_state target (TAPState w))
    (step_calls target (TAPState w)
       (allocated (port w) JTAG_SIGNAL_TRST)).
Proof.
  destruct (TAPState w) eqn:Hs.
  1: { rewrite next_state_unknown, step_calls_unknown.
       apply transition_from_unknown. exact Hs. }
  all: destruct w as [s [alloc log]]; cbn [TAPState] in Hs; subst s;
    unfold performs, step_calls, start_in; destruct target; cbn; ran.
Qed.

Lemma SetState_slow_path {H : Type} {P : JtagPort H} (fuel : nat)
  (target : jtagTAP_TAPState) (w : tap H) :
  target <> JTAGTAP_STATE_UNKNOWN ->
  (target == JTAGTAP_STATE_RESET)
    && port_IsAllocated JTAG_SIGNAL_TRST (port w) = false ->
  jtagTAP_SetState fuel target w =
  while_ fuel (not_at target) (transition target) w.
Proof.
  intros Hne Hslow. unfold jtagTAP_SetState.
  destruct (target == JTAGTAP_STATE_UNKNOWN) eqn:EU;
    [apply state_eqb_eq in EU; contradiction|].
  cbn [negb]. unfold bind at 1.
  destruct (target == JTAGTAP_STATE_RESET).
  - cbn [andb] in Hslow. unfold jtag_IsAllocated at 1. rewrite Hslow.
    reflexivity.
  - reflexivity.
Qed.

(** The calls of the loop depend on the state and on TRST alone. *)
Lemma loop_performs (fuel0 : nat) (target : jtagTAP_TAPState) :
  forall (s : jtagTAP_TAPState) (n : nat),
    hops fuel0 target s = Some n ->
    forall trst : bool,
    exists evs,
      forall (fuel : nat) (w : tap recorder),
        (n <= fuel)%nat ->
        TAPState w = s ->
        allocated (port w) JTAG_SIGNAL_TRST = trst ->
        performs (while_ fuel (not_at target) (transition target)) w
          target evs.
Proof.
  induction fuel0 as [|fuel0 IH]; intros s n Hn trst; simpl in Hn;
    destruct (s == target) eqn:E.
  1, 3: apply state_eqb_eq in E; subst s; exists [];
    intros fuel [s h] _ Hs _; cbn [TAPState] in Hs; subst s;
    exists (mk_tap target h); rewrite loop_done, app_nil_r;
    repeat split; reflexivity.
  - discriminate Hn.
  - destruct (hops fuel0 target (next_state target s)) as [k|] eqn:Hk;
      [|discriminate Hn].
    injection Hn as <-.
    destruct (IH _ _ Hk trst) as [rest Hrest].
    exists (step_calls target s trst ++ rest).
    intros fuel [s0 h] Hf Hs Ha; cbn [TAPState port] in Hs, Ha; subst s0.
    destruct fuel as [|fuel]; [lia|].
    assert (Hne : s <> target)
      by (intros ->; rewrite state_eqb_refl in E; discriminate E).
    unfold performs. rewrite (loop_step fuel target s h Hne).
    apply performs_seq with (s1 := next_state target s).
    + pose proof (transition_calls target (mk_tap s h)) as Hstep.
      cbn [TAPState port] in Hstep. rewrite Ha in Hstep. exact Hstep.
    + intros w1 Hs1 Ha1. apply Hrest; [lia | exact Hs1 |].
      rewrite Ha1. exact Ha.
Qed.

(** The calls of [jtagTAP_SetState] depend on the target, the state and
    TRST alone. *)
Lemma SetState_calls (target s : jtagTAP_TAPState) (trst : bool) :
  exists evs,
    forall (fuel : nat) (w : tap recorder),
      (8 <= fuel)%nat ->
      TAPState w = s ->
      allocated (port w) JTAG_SIGNAL_TRST = trst ->
      performs (jtagTAP_SetState fuel target) w target evs.
Proof.
  destruct (target == JTAGTAP_STATE_UNKNOWN) eqn:EU.
  { apply state_eqb_eq in EU; subst target. exists [].
    intros fuel [s0 [alloc log]] _ _ _.
    eexists; split; [reflexivity|]. rewrite app_nil_r.
    repeat split; reflexivity. }
  assert (Hne : target <> JTAGTAP_STATE_UNKNOWN)
    by (intros ->; discriminate EU).
  destruct ((target == JTAGTAP_STATE_RESET) && trst) eqn:Efast.
  - apply andb_true_iff in Efast as [ER ->].
    apply state_eqb_eq in ER; subst target.
    exists reset_calls. intros fuel w _ _ Ha.
    apply reset_fast_path. exact Ha.
  - destruct (hops_bound target s Hne) as (n & Hn & Hle).
    destruct (loop_performs 8 target s n Hn trst) as [evs Hevs].
    exists evs. intros fuel w Hf Hs Ha.
    unfold performs. rewrite SetState_slow_path.
    + apply Hevs; [lia | exact Hs | exact Ha].
    + exact Hne.
    + cbn [port_IsAllocated recorder_port]. rewrite Ha. exact Efast.
Qed.

(** In any world the calls are those read off a fresh recorder. *)
Lemma calls_of_performs (fuel : nat) (target : jtagTAP_TAPState)
  (w : tap recorder) :
  (8 <= fuel)%nat ->
  exists evs,
    calls_of target (TAPState w) (allocated (port w) JTAG_SIGNAL_TRST)
    = Some evs
    /\ performs (jtagTAP_SetState fuel target) w target evs.
Proof.
  intros Hf.
  destruct (SetState_calls target (TAPState w)
              (allocated (port w) JTAG_SIGNAL_TRST)) as [evs Hevs].
  exists evs. split; [|apply Hevs; [exact Hf|reflexivity|reflexivity]].
  assert (Hstart : performs (jtagTAP_SetState 8 target)
                     (start_in (TAPState w)
                        (allocated (port w) JTAG_SIGNAL_TRST)) target evs).
  { apply Hevs; [lia | reflexivity |].
    cbn. reflexivity. }
  apply performs_on_start in Hstart as (w' & Hrun & Ht).
  unfold calls_of. rewrite Hrun, Ht. reflexivity.
Qed.

Lemma hops_from_reset (target : jtagTAP_TAPState) :
  target <> JTAGTAP_STATE_UNKNOWN ->
  exists n, hops 8 target JTAGTAP_STATE_RESET = Some n /\ (n <= 7)%nat.
Proof.
  intros Hne. destruct target; try contradiction; vm_compute;
    eexists; (split; [reflexivity|]); lia.
Qed.

(** From Unknown, when the reset by TRST on entry is not taken, a call
    makes the calls of the reset and then those of the loop from Reset. *)
Lemma from_unknown_via_reset (target : jtagTAP_TAPState) (trst : bool) :
  target <> JTAGTAP_STATE_UNKNOWN ->
  (target == JTAGTAP_STATE_RESET) && trst = false ->
  exists rest,
    (forall (fuel : nat) (w : tap recorder),
        (7 <= fuel)%nat ->
        TAPState w = JTAGTAP_STATE_RESET ->
        allocated (port w) JTAG_SIGNAL_TRST = trst ->
        performs (jtagTAP_SetState fuel target) w target rest)
    /\ (forall (fuel : nat) (w : tap recorder),
           (8 <= fuel)%nat ->
           TAPState w = JTAGTAP_STATE_UNKNOWN ->
           allocated (port w) JTAG_SIGNAL_TRST = trst ->
           performs (jtagTAP_SetState fuel target) w target
             (unknown_reset_calls trst ++ rest)).
Proof.
  intros Hne Efast.
  destruct (hops_from_reset target Hne) as (n & Hn & Hle).
  destruct (loop_performs 8 target _ n Hn trst) as [rest Hrest].
  exists rest. split.
  - intros fuel w Hf Hs Ha. unfold performs. rewrite SetState_slow_path;
      [|exact Hne|cbn [port_IsAllocated recorder_port];
                  rewrite Ha; exact Efast].
    apply Hrest; [lia | exact Hs | exact Ha].
  - intros fuel [s h] Hf Hs Ha; cbn [TAPState port] in Hs, Ha.
    subst s. unfold performs. rewrite SetState_slow_path;
      [|exact Hne|cbn [port port_IsAllocated recorder_port];
                  rewrite Ha; exact Efast].
    destruct fuel as [|fuel]; [lia|].
    rewrite loop_step by (intros E; apply Hne; symmetry; exact E).
    apply performs_seq with (s1 := JTAGTAP_STATE_RESET).
    + pose proof (transition_calls target (mk_tap JTAGTAP_STATE_UNKNOWN h))
        as Hstep.
      cbn [TAPState port] in Hstep.
      rewrite next_state_unknown, step_calls_unknown, Ha in Hstep.
      exact Hstep.
    + intros w1 Hs1 Ha1. apply Hrest; [lia | exact Hs1 |].
      rewrite Ha1. exact Ha.
Qed.

(** From Unknown a call starts with the reset. *)
Lemma from_unknown (target : jtagTAP_TAPState) (trst : bool) :
  target <> JTAGTAP_STATE_UNKNOWN ->
  exists rest,
    forall (fuel : nat) (w : tap recorder),
      (8 <= fuel)%nat ->
      TAPState w = JTAGTAP_STATE_UNKNOWN ->
      allocated (port w) JTAG_SIGNAL_TRST = trst ->
      performs (jtagTAP_SetState fuel target) w target
        (unknown_reset_calls trst ++ rest).
Proof.
  intros Hne.
  destruct ((target == JTAGTAP_STATE_RESET) && trst) eqn:Efast.
  - apply andb_true_iff in Efast as [ER ->].
    apply state_eqb_eq in ER; subst target.
    exists []. intros fuel w _ _ Ha. rewrite app_nil_r.
    apply reset_fast_path. exact Ha.
  - destruct (from_unknown_via_reset target trst Hne Efast)
      as (rest & _ & Hrest).
    exists rest. exact Hrest.
Qed.

(** ** Calls that go through the hardware reset *)

Lemma calls_of_fast (s : jtagTAP_TAPState) :
  calls_of JTAGTAP_STATE_RESET s true = Some reset_calls.
Proof.
  destruct (performs_on_start _ _ _ _ _
              (reset_fast_path 8 (start_in s true) eq_refl))
    as (w' & Hrun & Ht).
  unfold calls_of. rewrite Hrun, Ht. reflexivity.
Qed.

Lemma calls_of_unknown (target : jtagTAP_TAPState) (trst : bool) :
  target <> JTAGTAP_STATE_UNKNOWN ->
  (target == JTAGTAP_STATE_RESET) && trst = false ->
  exists rest,
    calls_of target JTAGTAP_STATE_RESET trst = Some rest
    /\ calls_of target JTAGTAP_STATE_UNKNOWN trst
       = Some (unknown_reset_calls trst ++ rest).
Proof.
  intros Hne Efast.
  destruct (from_unknown_via_reset target trst Hne Efast)
    as (rest & Hreset & Hunknown).
  assert (Ha : forall s, allocated (port (start_in s trst)) JTAG_SIGNAL_TRST
                         = trst) by reflexivity.
  exists rest. split.
  - destruct (performs_on_start _ _ _ _ _
                (Hreset 8%nat (start_in JTAGTAP_STATE_RESET trst)
                   ltac:(lia) eq_refl (Ha _))) as (w' & Hrun & Ht).
    unfold calls_of. rewrite Hrun, Ht. reflexivity.
  - destruct (performs_on_start _ _ _ _ _
                (Hunknown 8%nat (start_in JTAGTAP_STATE_UNKNOWN trst)
                   ltac:(lia) eq_refl (Ha _))) as (w' & Hrun & Ht).
    unfold calls_of. rewrite Hrun, Ht. reflexivity.
Qed.

Lemma clock_pulses_app (a b : list event) :
  clock_pulses (a ++ b) = (clock_pulses a + clock_pulses b)%nat.
Proof. unfold clock_pulses. rewrite filter_app, length_app. reflexivity. Qed.

Lemma last_trst_app (a b : list event) :
  forall level, last_trst (a ++ b) level = last_trst b (last_trst a level).
Proof.
  induction a as [|e a IH]; intros level; [reflexivity|].
  destruct e as [[] l| |]; cbn [app last_trst]; apply IH.
Qed.

Lemma reset_calls_allowed : forallb (engine_call true) reset_calls = true.
Proof.
  unfold reset_calls, nops.
  generalize (Z.to_nat (delay_count - 1)) as k. intros k.
  rewrite !forallb_app. cbn [forallb engine_call andb].
  rewrite andb_true_r.
  induction k as [|k IH]; [reflexivity|]. exact IH.
Qed.

Lemma last_trst_reset_calls (level : option bool) :
  last_trst reset_calls level = Some true.
Proof.
  unfold reset_calls, nops.
  generalize (Z.to_nat (delay_count - 1)) as k. intros k.
  rewrite !last_trst_app. cbn [last_trst].
  induction k as [|k IH]; [reflexivity|]. exact IH.
Qed.

Lemma tms_first_reset : tms_first reset_calls = true.
Proof. reflexivity. Qed.

Lemma tms_first_reset_calls (rest : list event) :
  tms_first (reset_calls ++ rest) = true.
Proof. reflexivity. Qed.

(** ** Tables over all targets, states and TRST *)

Lemma reset_table (target : jtagTAP_TAPState) :
  target <> JTAGTAP_STATE_UNKNOWN ->
  (target == JTAGTAP_STATE_RESET) = false ->
  match calls_of target JTAGTAP_STATE_RESET true with
  | Some evs =>
      forallb (engine_call true) evs && (clock_pulses evs <=? 8)%nat
      && match last_trst evs (Some true) with
         | Some false => false
         | _ => true
         end
  | None => false
  end = true.
Proof.
  intros Hne ER. destruct target; try contradiction; try discriminate ER;
    vm_compute; reflexivity.
Qed.

Lemma calls_table (target s : jtagTAP_TAPState) (trst : bool) :
  match calls_of target s trst with
  | Some evs =>
      (forallb (engine_call trst) evs && tms_first evs)
      && ((clock_pulses evs <=? 12)%nat
          && ((s == JTAGTAP_STATE_UNKNOWN) && negb trst
              || (clock_pulses evs <=? 8)%nat))
      && match last_trst evs None with
         | Some false => false
         | _ => true
         end
  | None => false
  end = true.
Proof.
  destruct trst; [|destruct target, s; vm_compute; reflexivity].
  destruct (target == JTAGTAP_STATE_RESET) eqn:ER.
  { (* the reset on entry: the calls are those of the reset *)
    apply state_eqb_eq in ER; subst target. rewrite calls_of_fast.
    rewrite reset_calls_allowed, tms_first_reset,
      clock_pulses_reset_calls, last_trst_reset_calls.
    rewrite orb_true_r. reflexivity. }
  destruct s.
  1: { (* from Unknown: the reset, then the calls from Reset *)
    destruct (target == JTAGTAP_STATE_UNKNOWN) eqn:EU.
    { apply state_eqb_eq in EU; subst target. vm_compute. reflexivity. }
    assert (Hne : target <> JTAGTAP_STATE_UNKNOWN)
      by (intros ->; discriminate EU).
    assert (Hslow : (target == JTAGTAP_STATE_RESET) && true = false)
      by (rewrite ER; reflexivity).
    destruct (calls_of_unknown target true Hne Hslow) as (rest & Hr & ->).
    pose proof (reset_table target Hne ER) as Hrest. rewrite Hr in Hrest.
    apply andb_true_iff in Hrest as [Hrest Htrst].
    apply andb_true_iff in Hrest as [Hall Hp].
    cbv beta iota. unfold unknown_reset_calls.
    rewrite forallb_app, reset_calls_allowed, Hall, tms_first_reset_calls.
    rewrite clock_pulses_app, clock_pulses_reset_calls. cbn [Nat.add].
    rewrite Hp, last_trst_app, last_trst_reset_calls.
    apply Nat.leb_le in Hp.
    replace (clock_pulses rest <=? 12)%nat with true
      by (symmetry; apply Nat.leb_le; lia).
    cbn [andb orb state_eqb state_code Z.eqb negb].
    destruct (last_trst rest (Some true)) as [[|]|];
      [reflexivity | discriminate Htrst | reflexivity]. }
  all: destruct target; try discriminate ER; vm_compute; reflexivity.
Qed.

Lemma calls_allowed (target s : jtagTAP_TAPState) (trst : bool) :
  match calls_of target s trst with
  | Some evs => forallb (engine_call trst) evs && tms_first evs
  | None => false
  end = true.
Proof.
  pose proof (calls_table target s trst) as Htab.
  destruct (calls_of target s trst); [|discriminate Htab].
  apply andb_true_iff in Htab as [Htab _].
  apply andb_true_iff in Htab as [Htab _]. exact Htab.
Qed.

Lemma calls_pulses (target s : jtagTAP_TAPState) (trst : bool) :
  match calls_of target s trst with
  | Some evs =>
      (clock_pulses evs <=? 12)%nat
      && ((s == JTAGTAP_STATE_UNKNOWN) && negb trst
          || (clock_pulses evs <=? 8)%nat)
  | None => false
  end = true.
Proof.
  pose proof (calls_table target s trst) as Htab.
  destruct (calls_of target s trst); [|discriminate Htab].
  apply andb_true_iff in Htab as [Htab _].
  apply andb_true_iff in Htab as [_ Htab]. exact Htab.
Qed.

Lemma trst_table (target s : jtagTAP_TAPState) (trst : bool) :
  match calls_of target s trst with
  | Some evs =>
      match last_trst evs None with
      | Some false => false
      | _ => true
      end
  | None => false
  end = true.
Proof.
  pose proof (calls_table target s trst) as Htab.
  destruct (calls_of target s trst); [|discriminate Htab].
  apply andb_true_iff in Htab as [_ Htab]. exact Htab.
Qed.

Lemma calls_to_reset (s : jtagTAP_TAPState) :
  match calls_of JTAGTAP_STATE_RESET s false with
  | Some evs => forallb tms_high_only evs && (clock_pulses evs <=? 5)%nat
  | None => false
  end = true.
Proof. destruct s; vm_compute; reflexivity. Qed.

(** ** Properties of whole calls *)

(** X1: [jtagTAP_Init] and [jtagTAP_SetState(Unknown)] touch no hardware,
    and the first [jtagTAP_SetState] to a known target after either of
    them starts by resetting the TAP: by TRST when it is allocated, else
    by TMS high and five clock pulses. *)
Theorem forgotten_state_resets_first (fuel0 fuel : nat)
  (target : jtagTAP_TAPState) (w : tap recorder) :
  target <> JTAGTAP_STATE_UNKNOWN ->
  (8 <= fuel)%nat ->
  jtagTAP_Init w = Some (tt, mk_tap JTAGTAP_STATE_UNKNOWN (port w))
  /\ jtagTAP_SetState fuel0 JTAGTAP_STATE_UNKNOWN w
     = Some (tt, mk_tap JTAGTAP_STATE_UNKNOWN (port w))
  /\ exists rest,
       let evs :=
         unknown_reset_calls (allocated (port w) JTAG_SIGNAL_TRST) ++ rest in
       performs (jtagTAP_Init ;; jtagTAP_SetState fuel target) w target evs
       /\ performs (jtagTAP_SetState fuel0 JTAGTAP_STATE_UNKNOWN ;;
                    jtagTAP_SetState fuel target) w target evs.
Proof.
  intros Hne Hf. split; [reflexivity|]. split; [reflexivity|].
  destruct (from_unknown target (allocated (port w) JTAG_SIGNAL_TRST) Hne)
    as [rest Hrest].
  exists rest. cbv zeta.
  assert (Hforget : forall m : M recorder unit,
             m w = Some (tt, mk_tap JTAGTAP_STATE_UNKNOWN (port w)) ->
             performs m w JTAGTAP_STATE_UNKNOWN []).
  { intros m Hm. eexists; split; [exact Hm|]. rewrite app_nil_r.
    repeat split; reflexivity. }
  split.
  - change (unknown_reset_calls (allocated (port w) JTAG_SIGNAL_TRST) ++ rest)
      with ([] ++ unknown_reset_calls (allocated (port w) JTAG_SIGNAL_TRST)
               ++ rest).
    apply performs_seq with (s1 := JTAGTAP_STATE_UNKNOWN).
    + apply Hforget. reflexivity.
    + intros w1 Hs1 Ha1. apply Hrest; [exact Hf | exact Hs1 |].
      rewrite Ha1. reflexivity.
  - change (unknown_reset_calls (allocated (port w) JTAG_SIGNAL_TRST) ++ rest)
      with ([] ++ unknown_reset_calls (allocated (port w) JTAG_SIGNAL_TRST)
               ++ rest).
    apply performs_seq with (s1 := JTAGTAP_STATE_UNKNOWN).
    + apply Hforget. reflexivity.
    + intros w1 Hs1 Ha1. apply Hrest; [exact Hf | exact Hs1 |].
      rewrite Ha1. reflexivity.
Qed.

Lemma forgotten_state_resets_first_witness :
  let w := mk_tap JTAGTAP_STATE_DR_SHIFT (mk_recorder (with_trst false) []) in
  JTAGTAP_STATE_IDLE <> JTAGTAP_STATE_UNKNOWN
  /\ (8 <= 8)%nat
  /\ jtagTAP_Init w = Some (tt, mk_tap JTAGTAP_STATE_UNKNOWN (port w))
  /\ jtagTAP_SetState 0 JTAGTAP_STATE_UNKNOWN w
     = Some (tt, mk_tap JTAGTAP_STATE_UNKNOWN (port w))
  /\ exists rest,
       let evs :=
         unknown_reset_calls (allocated (port w) JTAG_SIGNAL_TRST) ++ rest in
       performs (jtagTAP_Init ;; jtagTAP_SetState 8 JTAGTAP_STATE_IDLE) w
         JTAGTAP_STATE_IDLE evs
       /\ performs (jtagTAP_SetState 0 JTAGTAP_STATE_UNKNOWN ;;
                    jtagTAP_SetState 8 JTAGTAP_STATE_IDLE) w
            JTAGTAP_STATE_IDLE evs.
Proof.
  intros w. split; [discriminate|]. split; [lia|].
  apply (forgotten_state_resets_first 0 8 JTAGTAP_STATE_IDLE w);
    [discriminate | lia].
Defined.

(** X2: the busy wait always completes, on any port: it runs the [nop]
    19999 times, one fewer than [delay_count], and leaves [TAPState]
    alone. *)
Theorem busy_wait_passes {H : Type} {P : JtagPort H} (w : tap H) :
  spin_delay w
  = Some (tt, mk_tap (TAPState w)
                (Nat.iter (Z.to_nat 19999) port_nop (port w)))
  /\ 19999 = delay_count - 1.
Proof. split; [apply spin_delay_runs | reflexivity]. Qed.

(** X3: the calls [jtagTAP_SetState] makes depend only on the target, the
    current state and whether TRST is allocated: two worlds that agree on
    these see the same calls, whatever was called before, whatever else is
    allocated and whatever the loop budget beyond eight. *)
Theorem SetState_calls_local (target : jtagTAP_TAPState)
  (fuel1 fuel2 : nat) (w1 w2 : tap recorder) :
  (8 <= fuel1)%nat -> (8 <= fuel2)%nat ->
  TAPState w1 = TAPState w2 ->
  allocated (port w1) JTAG_SIGNAL_TRST
  = allocated (port w2) JTAG_SIGNAL_TRST ->
  exists evs,
    performs (jtagTAP_SetState fuel1 target) w1 target evs
    /\ performs (jtagTAP_SetState fuel2 target) w2 target evs.
Proof.
  intros Hf1 Hf2 Hs Ha.
  destruct (SetState_calls target (TAPState w1)
              (allocated (port w1) JTAG_SIGNAL_TRST)) as [evs Hevs].
  exists evs. split; apply Hevs; auto.
Qed.

Lemma SetState_calls_local_witness :
  let w1 := mk_tap JTAGTAP_STATE_DR_PAUSE
              (mk_recorder (with_trst false) [EvClock; EvClock]) in
  let w2 := mk_tap JTAGTAP_STATE_DR_PAUSE
              (mk_recorder (fun _ => false) []) in
  (8 <= 8)%nat /\ (8 <= 20)%nat
  /\ TAPState w1 = TAPState w2
  /\ allocated (port w1) JTAG_SIGNAL_TRST
     = allocated (port w2) JTAG_SIGNAL_TRST
  /\ exists evs,
       performs (jtagTAP_SetState 8 JTAGTAP_STATE_IR_SHIFT) w1
         JTAGTAP_STATE_IR_SHIFT evs
       /\ performs (jtagTAP_SetState 20 JTAGTAP_STATE_IR_SHIFT) w2
            JTAGTAP_STATE_IR_SHIFT evs.
Proof.
  intros w1 w2. split; [lia|]. split; [lia|].
  split; [reflexivity|]. split; [reflexivity|].
  apply (SetState_calls_local JTAGTAP_STATE_IR_SHIFT 8 20 w1 w2);
    [lia | lia | reflexivity | reflexivity].
Defined.

(** X4: through [jtag_Set] the engine drives TMS and TRST and no other
    signal, and it drives TRST only when TRST is allocated. *)
Theorem SetState_drives_tms_and_trst (fuel : nat)
  (target : jtagTAP_TAPState) (w : tap recorder) :
  (8 <= fuel)%nat ->
  exists evs,
    performs (jtagTAP_SetState fuel target) w target evs
    /\ forall sig level,
         In (EvSet sig level) evs ->
         sig = JTAG_SIGNAL_TMS
         \/ (sig = JTAG_SIGNAL_TRST
             /\ allocated (port w) JTAG_SIGNAL_TRST = true).
Proof.
  intros Hf. destruct (calls_of_performs fuel target w Hf) as (evs & Hc & Hp).
  exists evs. split; [exact Hp|]. intros sig level Hin.
  pose proof (calls_allowed target (TAPState w)
                (allocated (port w) JTAG_SIGNAL_TRST)) as Hok.
  rewrite Hc in Hok. apply andb_true_iff in Hok as [Hall _].
  rewrite forallb_forall in Hall. specialize (Hall _ Hin).
  destruct sig; cbn in Hall; try discriminate Hall; auto.
Qed.

Lemma SetState_drives_tms_and_trst_witness :
  let w := mk_tap JTAGTAP_STATE_UNKNOWN (mk_recorder (with_trst true) []) in
  (8 <= 8)%nat
  /\ exists evs,
       performs (jtagTAP_SetState 8 JTAGTAP_STATE_DR_SHIFT) w
         JTAGTAP_STATE_DR_SHIFT evs
       /\ forall sig level,
            In (EvSet sig level) evs ->
            sig = JTAG_SIGNAL_TMS
            \/ (sig = JTAG_SIGNAL_TRST
                /\ allocated (port w) JTAG_SIGNAL_TRST = true).
Proof.
  intros w. split; [lia|].
  apply (SetState_drives_tms_and_trst 8 JTAGTAP_STATE_DR_SHIFT w). lia.
Defined.

(** X5: a call that reaches the hardware at all starts by driving TMS, so
    no clock pulse is issued at a TMS level left over from before the
    call. *)
Theorem SetState_drives_tms_first (fuel : nat)
  (target : jtagTAP_TAPState) (w : tap recorder) :
  (8 <= fuel)%nat ->
  exists evs,
    performs (jtagTAP_SetState fuel target) w target evs
    /\ (evs = []
        \/ exists level rest, evs = EvSet JTAG_SIGNAL_TMS level :: rest).
Proof.
  intros Hf. destruct (calls_of_performs fuel target w Hf) as (evs & Hc & Hp).
  exists evs. split; [exact Hp|].
  pose proof (calls_allowed target (TAPState w)
                (allocated (port w) JTAG_SIGNAL_TRST)) as Hok.
  rewrite Hc in Hok. apply andb_true_iff in Hok as [_ Hfirst].
  destruct evs as [|[[] level| |] rest]; try discriminate Hfirst; eauto.
Qed.

Lemma SetState_drives_tms_first_witness :
  let w := mk_tap JTAGTAP_STATE_IR_PAUSE (mk_recorder (with_trst true) []) in
  (8 <= 9)%nat
  /\ exists evs,
       performs (jtagTAP_SetState 9 JTAGTAP_STATE_IDLE) w
         JTAGTAP_STATE_IDLE evs
       /\ (evs = []
           \/ exists level rest, evs = EvSet JTAG_SIGNAL_TMS level :: rest).
Proof.
  intros w. split; [lia|].
  apply (SetState_drives_tms_first 9 JTAGTAP_STATE_IDLE w). lia.
Defined.

(** X6: a call issues at most twelve clock pulses, and at most eight unless
    it starts in Unknown with TRST unallocated. *)
Theorem SetState_pulse_bound (fuel : nat) (target : jtagTAP_TAPState)
  (w : tap recorder) :
  (8 <= fuel)%nat ->
  exists evs,
    performs (jtagTAP_SetState fuel target) w target evs
    /\ (clock_pulses evs <= 12)%nat
    /\ (TAPState w <> JTAGTAP_STATE_UNKNOWN
        \/ allocated (port w) JTAG_SIGNAL_TRST = true ->
        (clock_pulses evs <= 8)%nat).
Proof.
  intros Hf. destruct (calls_of_performs fuel target w Hf) as (evs & Hc & Hp).
  exists evs. split; [exact Hp|].
  pose proof (calls_pulses target (TAPState w)
                (allocated (port w) JTAG_SIGNAL_TRST)) as Hok.
  rewrite Hc in Hok. apply andb_true_iff in Hok as [H12 H8].
  split; [apply Nat.leb_le; exact H12|].
  intros Hknown. apply orb_true_iff in H8 as [Hun|H8];
    [|apply Nat.leb_le; exact H8].
  apply andb_true_iff in Hun as [Hu Ht]. apply state_eqb_eq in Hu.
  apply negb_true_iff in Ht. destruct Hknown; congruence.
Qed.

Lemma SetState_pulse_bound_witness :
  let w := mk_tap JTAGTAP_STATE_UNKNOWN (mk_recorder (with_trst false) []) in
  (8 <= 8)%nat
  /\ exists evs,
       performs (jtagTAP_SetState 8 JTAGTAP_STATE_IR_EXIT2) w
         JTAGTAP_STATE_IR_EXIT2 evs
       /\ (clock_pulses evs <= 12)%nat
       /\ (TAPState w <> JTAGTAP_STATE_UNKNOWN
           \/ allocated (port w) JTAG_SIGNAL_TRST = true ->
           (clock_pulses evs <= 8)%nat).
Proof.
  intros w. split; [lia|].
  apply (SetState_pulse_bound 8 JTAGTAP_STATE_IR_EXIT2 w). lia.
Defined.

(** X7: with TRST unallocated, [jtagTAP_SetState(Reset)] holds TMS high
    for the whole call, from any state, and needs at most five clock
    pulses. *)
Theorem reset_by_tms_high (fuel : nat) (w : tap recorder) :
  (8 <= fuel)%nat ->
  allocated (port w) JTAG_SIGNAL_TRST = false ->
  exists evs,
    performs (jtagTAP_SetState fuel JTAGTAP_STATE_RESET) w
      JTAGTAP_STATE_RESET evs
    /\ (forall sig level,
          In (EvSet sig level) evs ->
          sig = JTAG_SIGNAL_TMS /\ level = true)
    /\ (clock_pulses evs <= 5)%nat.
Proof.
  intros Hf Ha.
  destruct (calls_of_performs fuel JTAGTAP_STATE_RESET w Hf)
    as (evs & Hc & Hp).
  exists evs. split; [exact Hp|].
  pose proof (calls_to_reset (TAPState w)) as Hok.
  rewrite Ha in Hc. rewrite Hc in Hok.
  apply andb_true_iff in Hok as [Hall H5].
  split; [|apply Nat.leb_le; exact H5].
  intros sig level Hin. rewrite forallb_forall in Hall.
  specialize (Hall _ Hin).
  destruct sig, level; cbn in Hall; try discriminate Hall; auto.
Qed.

Lemma reset_by_tms_high_witness :
  let w := mk_tap JTAGTAP_STATE_DR_SHIFT (mk_recorder (with_trst false) []) in
  (8 <= 8)%nat
  /\ allocated (port w) JTAG_SIGNAL_TRST = false
  /\ exists evs,
       performs (jtagTAP_SetState 8 JTAGTAP_STATE_RESET) w
         JTAGTAP_STATE_RESET evs
       /\ (forall sig level,
             In (EvSet sig level) evs ->
             sig = JTAG_SIGNAL_TMS /\ level = true)
       /\ (clock_pulses evs <= 5)%nat.
Proof.
  intros w. split; [lia|]. split; [reflexivity|].
  apply (reset_by_tms_high 8 w); [lia | reflexivity].
Defined.

(** ** The bookkeeping of states *)

Lemma step_table (s t1 t2 : jtagTAP_TAPState) (trst level : bool) :
  step_calls t1 s trst = [EvSet JTAG_SIGNAL_TMS level; EvClock] ->
  step_calls t2 s trst = [EvSet JTAG_SIGNAL_TMS level; EvClock] ->
  next_state t1 s = next_state t2 s.
Proof.
  destruct s.
  1: { rewrite !step_calls_unknown.
       destruct trst; unfold unknown_reset_calls, reset_calls; cbn [app];
         discriminate. }
  all: intros H1 H2; destruct t1; vm_compute in H1; destruct level;
    try discriminate H1; destruct t2; vm_compute in H2;
    try discriminate H2; reflexivity.
Qed.

(** X8: the state a transition leaves in [TAPState] is determined by the
    state before and the level driven on TMS, not by the target: two
    transitions from the same state that drive the same level end in the
    same state. *)
Theorem next_state_follows_tms (t1 t2 s1 s2 : jtagTAP_TAPState)
  (level : bool) (w : tap recorder) :
  performs (transition t1) w s1 [EvSet JTAG_SIGNAL_TMS level; EvClock] ->
  performs (transition t2) w s2 [EvSet JTAG_SIGNAL_TMS level; EvClock] ->
  s1 = s2.
Proof.
  intros H1 H2.
  destruct (performs_fun _ _ _ _ _ _ H1 (transition_calls t1 w)) as [-> E1].
  destruct (performs_fun _ _ _ _ _ _ H2 (transition_calls t2 w)) as [-> E2].
  symmetry in E1, E2. apply (step_table _ _ _ _ _ E1 E2).
Qed.

Lemma next_state_follows_tms_witness :
  let w := mk_tap JTAGTAP_STATE_DR_EXIT1 (mk_recorder (with_trst false) []) in
  performs (transition JTAGTAP_STATE_DR_PAUSE) w JTAGTAP_STATE_DR_PAUSE
    [EvSet JTAG_SIGNAL_TMS false; EvClock]
  /\ performs (transition JTAGTAP_STATE_DR_SHIFT) w JTAGTAP_STATE_DR_PAUSE
       [EvSet JTAG_SIGNAL_TMS false; EvClock]
  /\ JTAGTAP_STATE_DR_PAUSE = JTAGTAP_STATE_DR_PAUSE.
Proof.
  intros w.
  assert (H1 : performs (transition JTAGTAP_STATE_DR_PAUSE) w
                 JTAGTAP_STATE_DR_PAUSE
                 [EvSet JTAG_SIGNAL_TMS false; EvClock])
    by (unfold performs; cbn; ran).
  assert (H2 : performs (transition JTAGTAP_STATE_DR_SHIFT) w
                 JTAGTAP_STATE_DR_PAUSE
                 [EvSet JTAG_SIGNAL_TMS false; EvClock])
    by (unfold performs; cbn; ran).
  split; [exact H1|]. split; [exact H2|].
  apply (next_state_follows_tms _ _ _ _ _ _ H1 H2).
Defined.

Lemma all_states_complete (s : jtagTAP_TAPState) : In s all_states.
Proof. destruct s; cbn; tauto. Qed.

Lemma distinct_NoDup (l : list jtagTAP_TAPState) :
  distinct l = true -> NoDup l.
Proof.
  induction l as [|s l IH]; cbn [distinct]; intros Hd; [constructor|].
  apply andb_true_iff in Hd as [Hs Hl]. constructor; [|apply IH; exact Hl].
  intros Hin. apply negb_true_iff in Hs.
  assert (Hex : existsb (state_eqb s) l = true).
  { apply existsb_exists. exists s. split; [exact Hin|apply state_eqb_refl]. }
  congruence.
Qed.

(** The loop goes through the states of the route. *)
Lemma loop_walks {H : Type} {P : JtagPort H} (fuel0 : nat)
  (target : jtagTAP_TAPState) :
  forall (s : jtagTAP_TAPState) (path : list jtagTAP_TAPState),
    route fuel0 target s = Some path ->
    forall (fuel : nat) (h : H),
      (length path <= fuel)%nat ->
      exists w',
        while_ fuel (not_at target) (transition target) (mk_tap s h)
        = Some (tt, w')
        /\ walks target (mk_tap s h) path w'
        /\ TAPState w' = target.
Proof.
  induction fuel0 as [|fuel0 IH]; intros s path Hr fuel h Hf; simpl in Hr;
    destruct (s == target) eqn:E.
  1, 3: apply state_eqb_eq in E; subst s; injection Hr as <-;
    exists (mk_tap target h); rewrite loop_done; repeat split; reflexivity.
  - discriminate Hr.
  - destruct (route fuel0 target (next_state target s)) as [p|] eqn:Hp;
      [|discriminate Hr].
    injection Hr as <-. cbn [length] in Hf.
    destruct fuel as [|fuel]; [lia|].
    rewrite loop_step
      by (intros ->; rewrite state_eqb_refl in E; discriminate E).
    unfold bind at 1.
    destruct (transition_state target (mk_tap s h)) as [h1 Hstep].
    cbn [TAPState] in Hstep. rewrite Hstep.
    destruct (IH _ _ Hp fuel h1) as (w' & Hrun & Hw & Hs); [lia|].
    exists w'. split; [exact Hrun|]. split; [|exact Hs].
    cbn [walks]. exists (mk_tap (next_state target s) h1).
    split; [exact Hstep|]. split; [reflexivity|exact Hw].
Qed.

Lemma route_length (fuel : nat) (target : jtagTAP_TAPState) :
  forall (s : jtagTAP_TAPState) (path : list jtagTAP_TAPState),
    route fuel target s = Some path -> (length path <= fuel)%nat.
Proof.
  induction fuel as [|fuel IH]; intros s path Hr; simpl in Hr;
    destruct (s == target); try (injection Hr as <-; cbn; lia);
    try discriminate Hr.
  destruct (route fuel target (next_state target s)) as [p|] eqn:Hp;
    [|discriminate Hr].
  injection Hr as <-. cbn [length]. specialize (IH _ _ Hp). lia.
Qed.

Lemma route_table (target s : jtagTAP_TAPState) :
  target <> JTAGTAP_STATE_UNKNOWN ->
  match route 8 target s with
  | Some path => distinct (s :: path) && (length path <=? 8)%nat
  | None => false
  end = true.
Proof.
  intros Hne. destruct target; try contradiction; destruct s;
    vm_compute; reflexivity.
Qed.

(** X9: when the reset by TRST is not taken, the transition loop goes from
    the current state to the target through at most eight states, none of
    them visited twice, on any port. *)
Theorem SetState_route {H : Type} {P : JtagPort H} (fuel : nat)
  (target : jtagTAP_TAPState) (w : tap H) :
  target <> JTAGTAP_STATE_UNKNOWN ->
  (8 <= fuel)%nat ->
  (target == JTAGTAP_STATE_RESET)
    && port_IsAllocated JTAG_SIGNAL_TRST (port w) = false ->
  exists path w',
    route 8 target (TAPState w) = Some path
    /\ jtagTAP_SetState fuel target w = Some (tt, w')
    /\ walks target w path w'
    /\ TAPState w' = target
    /\ NoDup (TAPState w :: path)
    /\ (length path <= 8)%nat.
Proof.
  intros Hne Hf Hslow. destruct w as [s h]. cbn [TAPState].
  pose proof (route_table target s Hne) as Htab.
  destruct (route 8 target s) as [path|] eqn:Hr; [|discriminate Htab].
  apply andb_true_iff in Htab as [Hd Hl]. apply Nat.leb_le in Hl.
  destruct (loop_walks 8 target s path Hr fuel h) as (w' & Hrun & Hw & Hs);
    [lia|].
  exists path, w'. split; [reflexivity|].
  rewrite SetState_slow_path by assumption.
  split; [exact Hrun|]. split; [exact Hw|]. split; [exact Hs|].
  split; [apply distinct_NoDup; exact Hd | exact Hl].
Qed.

Lemma SetState_route_witness :
  let w := mk_tap JTAGTAP_STATE_DR_SHIFT (mk_recorder (with_trst true) []) in
  JTAGTAP_STATE_IR_EXIT2 <> JTAGTAP_STATE_UNKNOWN
  /\ (8 <= 8)%nat
  /\ (JTAGTAP_STATE_IR_EXIT2 == JTAGTAP_STATE_RESET)
       && port_IsAllocated JTAG_SIGNAL_TRST (port w) = false
  /\ exists path w',
       route 8 JTAGTAP_STATE_IR_EXIT2 (TAPState w) = Some path
       /\ jtagTAP_SetState 8 JTAGTAP_STATE_IR_EXIT2 w = Some (tt, w')
       /\ walks JTAGTAP_STATE_IR_EXIT2 w path w'
       /\ TAPState w' = JTAGTAP_STATE_IR_EXIT2
       /\ NoDup (TAPState w :: path)
       /\ (length path <= 8)%nat.
Proof.
  intros w. split; [discriminate|]. split; [lia|]. split; [reflexivity|].
  apply (SetState_route 8 JTAGTAP_STATE_IR_EXIT2 w);
    [discriminate | lia | reflexivity].
Defined.

Lemma group_table (s target : jtagTAP_TAPState) :
  forallb
    (fun group =>
       negb (existsb (state_eqb s) group && existsb (state_eqb target) group)
       || match route 3 target s with
          | Some path =>
              forallb (fun x => existsb (state_eqb x) group) path
          | None => false
          end)
    [dr_shift_group; ir_shift_group] = true.
Proof. destruct s, target; vm_compute; reflexivity. Qed.

Lemma existsb_state (x : jtagTAP_TAPState) (l : list jtagTAP_TAPState) :
  existsb (state_eqb x) l = true <-> In x l.
Proof.
  rewrite existsb_exists. split.
  - intros (y & Hin & E). apply state_eqb_eq in E. subst y. exact Hin.
  - intros Hin. exists x. split; [exact Hin|apply state_eqb_refl].
Qed.

(** X10: while a scan is under way, moving between Shift, Exit1, Pause and
    Exit2 of the same register stays among these four states: the engine
    pauses and resumes a scan without passing through Update or Capture.
    On any port, within three transitions. *)
Theorem scan_group_closed {H : Type} {P : JtagPort H} (fuel : nat)
  (group : list jtagTAP_TAPState) (target : jtagTAP_TAPState) (w : tap H) :
  group = dr_shift_group \/ group = ir_shift_group ->
  In (TAPState w) group ->
  In target group ->
  (3 <= fuel)%nat ->
  exists path w',
    jtagTAP_SetState fuel target w = Some (tt, w')
    /\ walks target w path w'
    /\ TAPState w' = target
    /\ Forall (fun x => In x group) path.
Proof.
  intros Hg Hs Ht Hf. destruct w as [s h]. cbn [TAPState] in Hs.
  pose proof (group_table s target) as Htab.
  rewrite forallb_forall in Htab.
  assert (Hgin : In group [dr_shift_group; ir_shift_group])
    by (destruct Hg as [-> | ->]; cbn; tauto).
  specialize (Htab group Hgin).
  apply existsb_state in Hs. apply existsb_state in Ht.
  rewrite Hs, Ht in Htab. cbn [andb negb orb] in Htab.
  destruct (route 3 target s) as [path|] eqn:Hr; [|discriminate Htab].
  pose proof (route_length _ _ _ _ Hr) as Hlen.
  assert (Hne : target <> JTAGTAP_STATE_UNKNOWN).
  { apply existsb_state in Ht. intros ->.
    destruct Hg as [-> | ->]; cbn in Ht; intuition discriminate. }
  assert (Hslow : (target == JTAGTAP_STATE_RESET)
                    && port_IsAllocated JTAG_SIGNAL_TRST h = false).
  { apply existsb_state in Ht.
    destruct (target == JTAGTAP_STATE_RESET) eqn:ER; [|reflexivity].
    apply state_eqb_eq in ER. subst target.
    destruct Hg as [-> | ->]; cbn in Ht; intuition discriminate. }
  destruct (loop_walks 3 target s path Hr fuel h) as (w' & Hrun & Hw & Hs');
    [lia|].
  exists path, w'. rewrite SetState_slow_path by assumption.
  split; [exact Hrun|]. split; [exact Hw|]. split; [exact Hs'|].
  apply Forall_forall. intros x Hx. rewrite forallb_forall in Htab.
  apply existsb_state. apply Htab. exact Hx.
Qed.

Lemma scan_group_closed_witness :
  let w := mk_tap JTAGTAP_STATE_DR_EXIT2 (mk_recorder (with_trst true) []) in
  (dr_shift_group = dr_shift_group \/ dr_shift_group = ir_shift_group)
  /\ In (TAPState w) dr_shift_group
  /\ In JTAGTAP_STATE_DR_PAUSE dr_shift_group
  /\ (3 <= 3)%nat
  /\ exists path w',
       jtagTAP_SetState 3 JTAGTAP_STATE_DR_PAUSE w = Some (tt, w')
       /\ walks JTAGTAP_STATE_DR_PAUSE w path w'
       /\ TAPState w' = JTAGTAP_STATE_DR_PAUSE
       /\ Forall (fun x => In x dr_shift_group) path.
Proof.
  intros w.
  assert (Hs : In (TAPState w) dr_shift_group) by (cbn; tauto).
  assert (Ht : In JTAGTAP_STATE_DR_PAUSE dr_shift_group) by (cbn; tauto).
  split; [left; reflexivity|]. split; [exact Hs|]. split; [exact Ht|].
  split; [lia|].
  apply (scan_group_closed 3 dr_shift_group JTAGTAP_STATE_DR_PAUSE w);
    [left; reflexivity | exact Hs | exact Ht | lia].
Defined.

(** ** The route is a shortest one *)

Lemma next_in_successors (t s : jtagTAP_TAPState) :
  In (next_state t s) (successors s).
Proof.
  unfold successors. apply nodup_In.
  apply (in_map (fun t => next_state t s)). apply all_states_complete.
Qed.

Lemma steer_within (targets : list jtagTAP_TAPState) :
  forall s, within (length targets) s (steer targets s) = true.
Proof.
  induction targets as [|t targets IH]; intros s; cbn [steer length within].
  - rewrite state_eqb_refl. reflexivity.
  - apply orb_true_iff. right. apply existsb_exists.
    exists (next_state t s). split; [apply next_in_successors | apply IH].
Qed.

Lemma within_succ (k : nat) :
  forall s t, within k s t = true -> within (S k) s t = true.
Proof.
  induction k as [|k IH]; intros s t Hw.
  - cbn [within] in *. rewrite orb_false_r in Hw. rewrite Hw. reflexivity.
  - change (within (S (S k)) s t)
      with ((s == t)
            || existsb (fun s' => within (S k) s' t) (successors s)).
    change (within (S k) s t)
      with ((s == t) || existsb (fun s' => within k s' t) (successors s))
      in Hw.
    apply orb_true_iff in Hw as [Hw|Hw]; [rewrite Hw; reflexivity|].
    apply orb_true_iff. right.
    apply existsb_exists in Hw as (s' & Hin & Hs').
    apply existsb_exists. exists s'. split; [exact Hin|apply IH; exact Hs'].
Qed.

Lemma within_mono (k k' : nat) (s t : jtagTAP_TAPState) :
  (k <= k')%nat -> within k s t = true -> within k' s t = true.
Proof.
  induction 1 as [|k' _ IH]; intros Hw; [exact Hw|].
  apply within_succ, IH, Hw.
Qed.

Lemma shortest_table (target s : jtagTAP_TAPState) :
  match route 8 target s with
  | Some (_ :: path) => negb (within (length path) s target)
  | _ => true
  end = true.
Proof. destruct target, s; vm_compute; reflexivity. Qed.

(** X11: the route of the transition loop is a shortest one: no sequence
    of the engine's transitions, each made toward any target whatever,
    leads from the current state to the target in fewer steps. *)
Theorem route_is_shortest (target s : jtagTAP_TAPState)
  (targets path : list jtagTAP_TAPState) :
  steer targets s = target ->
  route 8 target s = Some path ->
  (length path <= length targets)%nat.
Proof.
  intros Hsteer Hr.
  pose proof (shortest_table target s) as Htab. rewrite Hr in Htab.
  destruct path as [|x path]; [cbn; lia|].
  apply negb_true_iff in Htab. cbn [length].
  destruct (Nat.le_gt_cases (S (length path)) (length targets)) as [|Hlt];
    [assumption|].
  pose proof (steer_within targets s) as Hw. rewrite Hsteer in Hw.
  assert (Hw' : within (length path) s target = true)
    by (apply (within_mono (length targets)); [lia | exact Hw]).
  congruence.
Qed.

Lemma route_is_shortest_witness :
  let detour := [JTAGTAP_STATE_DR_SHIFT; JTAGTAP_STATE_DR_UPDATE;
                 JTAGTAP_STATE_DR_UPDATE; JTAGTAP_STATE_IDLE] in
  steer detour JTAGTAP_STATE_DR_SCAN = JTAGTAP_STATE_IDLE
  /\ route 8 JTAGTAP_STATE_IDLE JTAGTAP_STATE_DR_SCAN
     = Some [JTAGTAP_STATE_IR_SCAN; JTAGTAP_STATE_RESET; JTAGTAP_STATE_IDLE]
  /\ (3 <= 4)%nat.
Proof.
  intros detour.
  assert (Hs : steer detour JTAGTAP_STATE_DR_SCAN = JTAGTAP_STATE_IDLE)
    by reflexivity.
  assert (Hr : route 8 JTAGTAP_STATE_IDLE JTAGTAP_STATE_DR_SCAN
               = Some [JTAGTAP_STATE_IR_SCAN; JTAGTAP_STATE_RESET;
                       JTAGTAP_STATE_IDLE]) by reflexivity.
  split; [exact Hs|]. split; [exact Hr|].
  apply (route_is_shortest _ _ _ _ Hs Hr).
Defined.

(** ** Registers are not captured on the way elsewhere *)

Lemma capture_table (target s : jtagTAP_TAPState) :
  target <> JTAGTAP_STATE_UNKNOWN ->
  match route 8 target s with
  | Some path =>
      implb (existsb (state_eqb JTAGTAP_STATE_DR_CAPTURE) path)
        (existsb (state_eqb target) dr_path)
      && implb (existsb (state_eqb JTAGTAP_STATE_IR_CAPTURE) path)
           (existsb (state_eqb target) ir_path)
  | None => false
  end = true.
Proof.
  intros Hne. destruct target; try contradiction; destruct s;
    vm_compute; reflexivity.
Qed.

(** X12: the transition loop enters Capture-DR only on the way to a target
    among DR-Capture..DR-Update, and Capture-IR only on the way to a target
    among IR-Capture..IR-Update: no register is captured on the way to
    somewhere else.  On any port. *)
Theorem capture_only_for_target {H : Type} {P : JtagPort H} (fuel : nat)
  (target : jtagTAP_TAPState) (w : tap H) :
  target <> JTAGTAP_STATE_UNKNOWN ->
  (8 <= fuel)%nat ->
  (target == JTAGTAP_STATE_RESET)
    && port_IsAllocated JTAG_SIGNAL_TRST (port w) = false ->
  exists path w',
    jtagTAP_SetState fuel target w = Some (tt, w')
    /\ walks target w path w'
    /\ TAPState w' = target
    /\ (In JTAGTAP_STATE_DR_CAPTURE path -> In target dr_path)
    /\ (In JTAGTAP_STATE_IR_CAPTURE path -> In target ir_path).
Proof.
  intros Hne Hf Hslow. destruct w as [s h].
  pose proof (capture_table target s Hne) as Htab.
  destruct (route 8 target s) as [path|] eqn:Hr; [|discriminate Htab].
  apply andb_true_iff in Htab as [Hdr Hir].
  pose proof (route_length _ _ _ _ Hr) as Hlen.
  destruct (loop_walks 8 target s path Hr fuel h) as (w' & Hrun & Hw & Hs);
    [lia|].
  exists path, w'. rewrite SetState_slow_path by assumption.
  split; [exact Hrun|]. split; [exact Hw|]. split; [exact Hs|].
  split; intros Hin; apply existsb_state; apply existsb_state in Hin.
  - rewrite Hin in Hdr. exact Hdr.
  - rewrite Hin in Hir. exact Hir.
Qed.

Lemma capture_only_for_target_witness :
  let w := mk_tap JTAGTAP_STATE_IR_PAUSE (mk_recorder (with_trst true) []) in
  JTAGTAP_STATE_DR_EXIT2 <> JTAGTAP_STATE_UNKNOWN
  /\ (8 <= 8)%nat
  /\ (JTAGTAP_STATE_DR_EXIT2 == JTAGTAP_STATE_RESET)
       && port_IsAllocated JTAG_SIGNAL_TRST (port w) = false
  /\ exists path w',
       jtagTAP_SetState 8 JTAGTAP_STATE_DR_EXIT2 w = Some (tt, w')
       /\ walks JTAGTAP_STATE_DR_EXIT2 w path w'
       /\ TAPState w' = JTAGTAP_STATE_DR_EXIT2
       /\ (In JTAGTAP_STATE_DR_CAPTURE path ->
           In JTAGTAP_STATE_DR_EXIT2 dr_path)
       /\ (In JTAGTAP_STATE_IR_CAPTURE path ->
           In JTAGTAP_STATE_DR_EXIT2 ir_path).
Proof.
  intros w. split; [discriminate|]. split; [lia|]. split; [reflexivity|].
  apply (capture_only_for_target 8 JTAGTAP_STATE_DR_EXIT2 w);
    [discriminate | lia | reflexivity].
Defined.

(** ** TRST is released *)

Lemma last_trst_from (evs : list event) :
  forall level,
    last_trst evs level
    = match last_trst evs None with
      | Some l => Some l
      | None => level
      end.
Proof.
  induction evs as [|e evs IH]; intros level; [reflexivity|].
  destruct e as [[] l| |]; cbn [last_trst]; try apply IH.
  rewrite (IH (Some l)). destruct (last_trst evs None); reflexivity.
Qed.

(** X13: a call leaves TRST at the level it had before the call, or high:
    a call that drives TRST drives it high last, and a call that does not
    drive it leaves it as it was. *)
Theorem trst_unchanged_or_released (fuel : nat)
  (target : jtagTAP_TAPState) (w : tap recorder) :
  (8 <= fuel)%nat ->
  exists evs,
    performs (jtagTAP_SetState fuel target) w target evs
    /\ forall before : option bool,
         last_trst evs before = before
         \/ last_trst evs before = Some true.
Proof.
  intros Hf. destruct (calls_of_performs fuel target w Hf) as (evs & Hc & Hp).
  exists evs. split; [exact Hp|]. intros before.
  pose proof (trst_table target (TAPState w)
                (allocated (port w) JTAG_SIGNAL_TRST)) as Hok.
  rewrite Hc in Hok. rewrite (last_trst_from evs before).
  destruct (last_trst evs None) as [[|]|];
    [right; reflexivity | discriminate Hok | left; reflexivity].
Qed.

Lemma trst_unchanged_or_released_witness :
  let w := mk_tap JTAGTAP_STATE_IDLE (mk_recorder (with_trst true) []) in
  (8 <= 8)%nat
  /\ exists evs,
       performs (jtagTAP_SetState 8 JTAGTAP_STATE_DR_SHIFT) w
         JTAGTAP_STATE_DR_SHIFT evs
       /\ forall before : option bool,
            last_trst evs before = before
            \/ last_trst evs before = Some true.
Proof.
  intros w. split; [lia|].
  apply (trst_unchanged_or_released 8 JTAGTAP_STATE_DR_SHIFT w). lia.
Defined.

(** ** Names *)

(** X14: the seventeen states have seventeen different names in
    [jtagTAP_StateNames]. *)
Theorem StateNames_distinct (a b : jtagTAP_TAPState) :
  JtagTAPNames.jtagTAP_StateNames a = JtagTAPNames.jtagTAP_StateNames b ->
  a = b.
Proof.
  destruct a, b; intros E; try reflexivity; vm_compute in E; discriminate E.
Qed.

Lemma StateNames_distinct_witness :
  JtagTAPNames.jtagTAP_StateNames JTAGTAP_STATE_IR_EXIT2
  = JtagTAPNames.jtagTAP_StateNames JTAGTAP_STATE_IR_EXIT2
  /\ JTAGTAP_STATE_IR_EXIT2 = JTAGTAP_STATE_IR_EXIT2.
Proof.
  split; [reflexivity|]. apply StateNames_distinct. reflexivity.
Defined.

End TAPMore.
